(** * 99-backend-exercise: the User Service and the public API gateway

    A shallow embedding of [user_service.py] and [public_api.py].

    Handlers are functions from the request (and, for the User Service, the
    state of the [users] table) to an outcome: either the call of
    [write_json] that ends the handler, or the exception that escapes it.
    The Python builtins and the two libraries the handlers lean on
    ([sqlite3] and [requests]) are modelled next to the code that calls
    them, each with the rule of the library it stands for. *)

From Stdlib Require Import ZArith List String Ascii Bool Lia.
From Stdlib Require Import Sorting.Sorted Sorting.Permutation.
Import ListNotations.

Set Warnings "-register-all".

Local Open Scope string_scope.
Local Open Scope Z_scope.

(* ================================================================= *)
(** ** Python values, exceptions and builtins *)

Module Py.

(** The exception classes that the handlers can meet. *)
Inductive exn : Type :=
| TypeError
| ValueError
| OverflowError
| KeyError
| AttributeError
| IndexError
| ProgrammingError      (* sqlite3.ProgrammingError *)
| DatabaseError         (* sqlite3.DatabaseError and its other subclasses *)
| MissingArgumentError  (* tornado.web.MissingArgumentError *)
| RequestException.     (* requests: transport failure or a body that is not JSON *)

(** A computation that returns or raises. *)
Inductive res (A : Type) : Type :=
| Ok (a : A)
| Raise (e : exn).
Arguments Ok {A} a.
Arguments Raise {A} e.

Definition bind {A B : Type} (m : res A) (k : A -> res B) : res B :=
  match m with
  | Ok a => k a
  | Raise e => Raise e
  end.

Notation "'let*' x ':=' m 'in' k" := (bind m (fun x => k))
  (at level 10, x name, m at level 100, k at level 200).
Notation "'let*' ' p ':=' m 'in' k" := (bind m (fun x => match x with p => k end))
  (at level 10, p pattern, m at level 100, k at level 200).

Fixpoint mapM {A B : Type} (f : A -> res B) (l : list A) : res (list B) :=
  match l with
  | [] => Ok []
  | x :: t =>
      let* y := f x in
      let* ys := mapM f t in
      Ok (y :: ys)
  end.

(** A float is a finite dyadic number [m * 2^e], a NaN or an infinity:
    every IEEE double is one of these, and [int()] needs no more. *)
Inductive pyfloat : Type :=
| Finite (m e : Z)
| NaN
| Inf (negative : bool).

(** The values [json.loads] produces, which are also the values the
    handlers pass around.  A dict keeps its items in insertion order; a
    tuple is written as a list. *)
Inductive value : Type :=
| VNone
| VBool (b : bool)
| VInt (n : Z)
| VFloat (f : pyfloat)
| VStr (s : string)
| VList (l : list value)
| VDict (items : list (string * value)).

Fixpoint lookup (k : string) (items : list (string * value)) : option value :=
  match items with
  | [] => None
  | (k', v) :: t => if String.eqb k k' then Some v else lookup k t
  end.

(** [d.get(k)]: the value, or [None] when the key is absent; an object
    that is not a dict has no such method. *)
Definition dict_get (d : value) (k : string) : res value :=
  match d with
  | VDict items =>
      match lookup k items with
      | Some v => Ok v
      | None => Ok VNone
      end
  | _ => Raise AttributeError
  end.

(** [row[k]] with a string key. *)
Definition subscript (row : value) (k : string) : res value :=
  match row with
  | VDict items =>
      match lookup k items with
      | Some v => Ok v
      | None => Raise KeyError
      end
  | _ => Raise TypeError
  end.

Definition chars (s : string) : list value :=
  map (fun c => VStr (String c EmptyString)) (list_ascii_of_string s).

(** The items of [for x in v] and of [v] used as a sequence: a string
    gives its characters, a dict its keys. *)
Definition iterate (v : value) : res (list value) :=
  match v with
  | VList l => Ok l
  | VStr s => Ok (chars s)
  | VDict items => Ok (map (fun kv => VStr (fst kv)) items)
  | _ => Raise TypeError
  end.

(** Only lists and dicts among these values cannot be hashed. *)
Definition hashable (v : value) : bool :=
  match v with
  | VList _ | VDict _ => false
  | _ => true
  end.

(** [v in {s1, s2, ...}] for a set of strings: the value is hashed first. *)
Definition in_str_set (v : value) (set : list string) : res bool :=
  match v with
  | VList _ | VDict _ => Raise TypeError
  | VStr s => Ok (existsb (String.eqb s) set)
  | _ => Ok false
  end.

(** *** [int()] *)

Definition is_space (c : ascii) : bool :=
  let n := nat_of_ascii c in
  ((9 <=? n) && (n <=? 13) || (28 <=? n) && (n <=? 32))%nat.

Definition digit_of (c : ascii) : option Z :=
  let n := Z.of_nat (nat_of_ascii c) in
  if (48 <=? n) && (n <=? 57) then Some (n - 48) else None.

Fixpoint lstrip (s : list ascii) : list ascii :=
  match s with
  | c :: t => if is_space c then lstrip t else s
  | [] => []
  end.

Definition strip (s : list ascii) : list ascii :=
  rev (lstrip (rev (lstrip s))).

(** Decimal digits, single underscores allowed between two digits. *)
Fixpoint digits (acc : Z) (after_digit : bool) (s : list ascii) : option Z :=
  match s with
  | [] => if after_digit then Some acc else None
  | c :: t =>
      if Ascii.eqb c "_"%char
      then (if after_digit then digits acc false t else None)
      else match digit_of c with
           | Some d => digits (10 * acc + d) true t
           | None => None
           end
  end.

(** [int(s)] in base ten: surrounding white space, an optional sign, the
    digits.  Strings are byte strings here, so the decimal digits and
    spaces outside ASCII that Python also accepts are not digits; the
    interpreter's limit on the number of digits is not modelled. *)
Definition int_of_str (s : string) : option Z :=
  match strip (list_ascii_of_string s) with
  | "+"%char :: t => digits 0 false t
  | "-"%char :: t => option_map Z.opp (digits 0 false t)
  | t => digits 0 false t
  end.

(** [int(f)] rounds towards zero. *)
Definition int_of_float (f : pyfloat) : res Z :=
  match f with
  | Finite m e => Ok (if 0 <=? e then m * 2 ^ e else Z.quot m (2 ^ (- e)))
  | NaN => Raise ValueError
  | Inf _ => Raise OverflowError
  end.

Definition int (v : value) : res Z :=
  match v with
  | VNone => Raise TypeError
  | VBool b => Ok (if b then 1 else 0)
  | VInt n => Ok n
  | VFloat f => int_of_float f
  | VStr s =>
      match int_of_str s with
      | Some n => Ok n
      | None => Raise ValueError
      end
  | VList _ | VDict _ => Raise TypeError
  end.

End Py.

(** What a handler leaves behind when it returns: the call of
    [write_json(obj, status_code)] that it made. *)
Record response : Type := { status : Z; body : Py.value }.

Definition write_json (obj : Py.value) (status_code : Z) : response :=
  {| status := status_code; body := obj |}.

(** What [self.get_argument(name, default)] returns: the string [s] that
    the framework hands back for the argument ([Some s]: decoded, control
    characters replaced by spaces, white space stripped), or the default
    when the request has no such argument.  A request whose argument is
    not valid UTF-8 is answered 400 by the framework inside
    [get_argument] and gets no further in the handler. *)
Definition get_argument (arg : option string) (default : Py.value) : Py.value :=
  match arg with
  | Some s => Py.VStr s
  | None => default
  end.

(* ================================================================= *)
(** ** user_service.py *)

Module UserService.
Import Py.

(** *** The [users] table and the [sqlite3] driver *)

(** A row of ['users']: four columns, all [NOT NULL]. *)
Record row : Type := {
  id : Z;
  name : string;
  created_at : Z;
  updated_at : Z
}.

(** The database file: the rows in rowid order, and the counter that
    [AUTOINCREMENT] keeps in [sqlite_sequence] (the largest rowid ever
    given out). *)
Record db : Type := {
  users : list row;
  sqlite_sequence : Z
}.

(** [App.init_db]: [CREATE TABLE IF NOT EXISTS] makes the table in a new
    file and leaves an existing one alone. *)
Definition init_db (file : option db) : db :=
  match file with
  | Some d => d
  | None => {| users := []; sqlite_sequence := 0 |}
  end.

Inductive sqlval : Type :=
| SNull
| SInteger (n : Z)
| SReal (f : pyfloat)
| SText (s : string).

Definition max_int64 : Z := 2 ^ 63 - 1.

Definition fits_int64 (n : Z) : bool :=
  (- 2 ^ 63 <=? n) && (n <=? max_int64).

(** How the driver turns one Python parameter into an SQLite value.  An
    [int] outside 64 bits is refused with [OverflowError] ("Python int too
    large to convert to SQLite INTEGER"). *)
Definition bind_param (v : value) : res sqlval :=
  match v with
  | VNone => Ok SNull
  | VBool b => Ok (SInteger (if b then 1 else 0))
  | VInt n => if fits_int64 n then Ok (SInteger n) else Raise OverflowError
  | VFloat f => Ok (SReal f)
  | VStr s => Ok (SText s)
  | VList _ | VDict _ => Raise ProgrammingError
  end.

(** The [parameters] of [cursor.execute(sql, parameters)] for a statement
    whose placeholders are all [?]: any sequence will do, and a [str] is a
    sequence of its characters. *)
Definition sequence_items (parameters : value) : res (list value) :=
  match parameters with
  | VList l => Ok l
  | VStr s => Ok (chars s)
  | _ => Raise ProgrammingError
  end.

(** The driver first compares the number of items with the number of
    placeholders ("Incorrect number of bindings supplied"), then binds
    them one by one. *)
Definition bind_parameters (placeholders : nat) (parameters : value)
  : res (list sqlval) :=
  let* items := sequence_items parameters in
  if Nat.eqb (List.length items) placeholders
  then mapM bind_param items
  else Raise ProgrammingError.

(** [ORDER BY created_at DESC] as an insertion sort of the table scan;
    rows with equal [created_at], whose order the engine does not promise,
    stay in rowid order. *)
Fixpoint insert_desc (r : row) (l : list row) : list row :=
  match l with
  | [] => [r]
  | x :: t =>
      if created_at x <=? created_at r then r :: l else x :: insert_desc r t
  end.

Fixpoint order_by_created_at_desc (l : list row) : list row :=
  match l with
  | [] => []
  | r :: t => insert_desc r (order_by_created_at_desc t)
  end.

(** [LIMIT limit OFFSET offset]: a negative limit is no limit, a negative
    offset is no offset. *)
Definition limit_offset (limit offset : Z) (l : list row) : list row :=
  let rest := skipn (Z.to_nat offset) l in
  if limit <? 0 then rest else firstn (Z.to_nat limit) rest.

(** [SELECT * FROM users ORDER BY created_at DESC LIMIT ? OFFSET ?];
    the handler binds two integers. *)
Definition select_page (d : db) (parameters : value) : res (list row) :=
  let* ps := bind_parameters 2 parameters in
  match ps with
  | [SInteger limit; SInteger offset] =>
      Ok (limit_offset limit offset (order_by_created_at_desc (users d)))
  | _ => Raise DatabaseError
  end.

Fixpoint decimal (acc : Z) (s : list ascii) : option Z :=
  match s with
  | [] => Some acc
  | c :: t =>
      match digit_of c with
      | Some n => decimal (10 * acc + n) t
      | None => None
      end
  end.

(** Comparing the integer column [id] with a parameter gives the
    parameter numeric affinity: a text that reads as an integer is
    compared as that integer.  Only texts of decimal digits reach this
    point (the route is [/users/(\d+)]), so no other numeric spelling is
    recognised here. *)
Definition numeric_affinity (p : sqlval) : sqlval :=
  match p with
  | SText (String c s) =>
      match decimal 0 (c :: list_ascii_of_string s) with
      | Some n => SInteger n
      | None => p
      end
  | _ => p
  end.

Definition id_equals (p : sqlval) (r : row) : bool :=
  match numeric_affinity p with
  | SInteger n => id r =? n
  | SReal (Finite m e) =>
      if 0 <=? e then id r =? m * 2 ^ e else id r * 2 ^ (- e) =? m
  | _ => false
  end.

(** [SELECT * FROM users WHERE id=?] *)
Definition select_by_id (d : db) (parameters : value) : res (list row) :=
  let* ps := bind_parameters 1 parameters in
  match ps with
  | [p] => Ok (filter (id_equals p) (users d))
  | _ => Raise ProgrammingError
  end.

Definition max_rowid (l : list row) : Z :=
  fold_right (fun r m => Z.max (id r) m) 0 l.

(** [INSERT INTO 'users' ('name', 'created_at', 'updated_at') VALUES (?, ?, ?)];
    the handler binds a text and two integers.  With [AUTOINCREMENT] the
    new rowid is one more than the largest rowid the table has ever held,
    and the insert fails once that is the largest 64-bit integer.  Returns
    the new state and [cursor.lastrowid]. *)
Definition insert_user (d : db) (parameters : value) : res (db * option Z) :=
  let* ps := bind_parameters 3 parameters in
  match ps with
  | [SText n; SInteger c; SInteger u] =>
      let largest := Z.max (sqlite_sequence d) (max_rowid (users d)) in
      if largest <? max_int64 then
        let r := {| id := largest + 1; name := n; created_at := c; updated_at := u |} in
        Ok ({| users := users d ++ [r]; sqlite_sequence := largest + 1 |},
            Some (largest + 1))
      else Raise DatabaseError
  | _ => Raise DatabaseError
  end.

(** [sqlite3.Row.__getitem__] with a column name. *)
Definition row_get (r : row) (field : string) : res value :=
  if String.eqb field "id" then Ok (VInt (id r))
  else if String.eqb field "name" then Ok (VStr (name r))
  else if String.eqb field "created_at" then Ok (VInt (created_at r))
  else if String.eqb field "updated_at" then Ok (VInt (updated_at r))
  else Raise IndexError.

(** *** The handlers *)

Definition fields : list string := ["id"; "name"; "created_at"; "updated_at"].

(** [{field: row[field] for field in fields}] *)
Definition user_of_row (r : row) : res value :=
  let* items := mapM (fun field => let* v := row_get r field in Ok (field, v)) fields in
  Ok (VDict items).

(** [UsersHandler.get], on the [page_num] and [page_size] arguments of the
    query string. *)
Definition UsersHandler_get (d : db) (page_num_arg page_size_arg : option string)
  : res response :=
  let page_num := get_argument page_num_arg (VInt 1) in
  let page_size := get_argument page_size_arg (VInt 10) in
  match int page_num with
  | Raise _ =>
      Ok (write_json (VDict [("result", VBool false); ("errors", VStr "invalid page_num")]) 400)
  | Ok page_num =>
      match int page_size with
      | Raise _ =>
          Ok (write_json (VDict [("result", VBool false); ("errors", VStr "invalid page_size")]) 400)
      | Ok page_size =>
          let limit := page_size in
          let offset := (page_num - 1) * page_size in
          let args := VList [VInt limit; VInt offset] in
          let* results := select_page d args in
          let* users := mapM user_of_row results in
          Ok (write_json (VDict [("result", VBool true); ("users", VList users)]) 200)
      end
  end.

(** [UsersHandler.post], on what [self.get_argument("name")] gives
    ([Some user_name] when it returns [user_name], [None] when it finds no
    such argument) and on [time_now], the clock reading
    [int(time.time() * 1e6)].  Returns the table as the handler leaves
    it. *)
Definition UsersHandler_post (d : db) (name_arg : option string) (time_now : Z)
  : res (db * response) :=
  match name_arg with
  | None => Raise MissingArgumentError
  | Some user_name =>
      let errors : list string := [] in
      if (0 <? List.length errors)%nat then
        Ok (d, write_json (VDict [("result", VBool false);
                                  ("errors", VList (map VStr errors))]) 400)
      else
        let* '(d', lastrowid) :=
          insert_user d (VList [VStr user_name; VInt time_now; VInt time_now]) in
        match lastrowid with
        | None =>
            Ok (d', write_json (VDict [("result", VBool false);
                                       ("errors", VList [VStr "Error while adding user to db"])]) 500)
        | Some rowid =>
            let user := VDict [("id", VInt rowid); ("name", VStr user_name);
                               ("created_at", VInt time_now); ("updated_at", VInt time_now)] in
            Ok (d', write_json (VDict [("result", VBool true); ("user", user)]) 200)
        end
  end.

(** The body of [for row in results: user = {...}]. *)
Fixpoint last_user (results : list row) (user : value) : res value :=
  match results with
  | [] => Ok user
  | r :: t => let* user := user_of_row r in last_user t user
  end.

(** [UserHandler.get], on the path segment that [(\d+)] captured.
    [args = (user_id)] is [user_id] itself, a string, not a tuple. *)
Definition UserHandler_get (d : db) (user_id : string) : res response :=
  let args := VStr user_id in
  let user := VDict [] in
  match select_by_id d args with
  | Raise _ =>
      Ok (write_json (VDict [("result", VBool false); ("user", user)]) 404)
  | Ok results =>
      let* user := last_user results user in
      Ok (write_json (VDict [("result", VBool true); ("user", user)]) 200)
  end.

(** *** [make_app] *)

Inductive handler : Type :=
| PingHandler
| UsersHandler
| UserHandler.

(** A pattern of the routing table: a literal path, followed or not by
    the group [(\d+)]. *)
Record urlspec : Type := {
  literal : string;
  digits_group : bool;
  handler_class : handler
}.

(** The table of [make_app], in its order. *)
Definition make_app : list urlspec :=
  [ {| literal := "/users/ping"; digits_group := false; handler_class := PingHandler |};
    {| literal := "/users"; digits_group := false; handler_class := UsersHandler |};
    {| literal := "/users/"; digits_group := true; handler_class := UserHandler |} ].

Fixpoint strip_prefix (prefix s : string) : option string :=
  match prefix with
  | EmptyString => Some s
  | String a p =>
      match s with
      | String b t => if Ascii.eqb a b then strip_prefix p t else None
      | EmptyString => None
      end
  end.

(** [$], which the framework appends to every pattern: the end of the
    path, or the newline that ends it. *)
Definition at_dollar (s : string) : bool :=
  String.eqb s "" || String.eqb s (String "010"%char "").

(** The longest run of decimal digits at the head of [s], and the rest. *)
Fixpoint span_digits (s : string) : string * string :=
  match s with
  | String c t =>
      match digit_of c with
      | Some _ => let (ds, rest) := span_digits t in (String c ds, rest)
      | None => ("", s)
      end
  | EmptyString => ("", "")
  end.

(** [regex.match(path)] for a pattern of the table: the groups, when the
    whole path matches. *)
Definition regex_match (spec : urlspec) (path : string) : option (list string) :=
  match strip_prefix (literal spec) path with
  | None => None
  | Some rest =>
      if digits_group spec then
        let (ds, rest') := span_digits rest in
        if negb (String.eqb ds "") && at_dollar rest' then Some [ds] else None
      else if at_dollar rest then Some [] else None
  end.

(** The first pattern that matches decides; its groups are the arguments
    of the handler. *)
Fixpoint find_handler (specs : list urlspec) (path : string)
  : option (handler * list string) :=
  match specs with
  | [] => None
  | spec :: rest =>
      match regex_match spec path with
      | Some groups => Some (handler_class spec, groups)
      | None => find_handler rest path
      end
  end.

End UserService.

(* ================================================================= *)
(** ** public_api.py *)

Module PublicApi.
Import Py.

(** *** The [requests] library *)

(** A call of [requests.get] or [requests.post] as the handler makes it.
    [params] goes into the query string of the URL; [data] is what is
    form-encoded into the body of the request. *)
Record http_call : Type := {
  method : string;
  url : string;
  params : option value;
  data : option value
}.

(** [requests.get(url, params=params)] *)
Definition requests_get (url : string) (params : value) : http_call :=
  {| method := "GET"; url := url; params := Some params; data := None |}.

(** [requests.post(url, data=data, params=params)] *)
Definition requests_post (url : string) (data params : option value) : http_call :=
  {| method := "POST"; url := url; params := params; data := data |}.

(** What a handler did: the calls it made to the backend, in order, and
    how it ended. *)
Record run : Type := {
  calls : list http_call;
  outcome : res response
}.

(** *** [ListingsHandler] *)

Definition fields : list string :=
  ["id"; "user_id"; "listing_type"; "price"; "created_at"; "updated_at"].

(** [{field: row[field] for field in fields}] as a list of items. *)
Definition project_items (row : value) : res (list (string * value)) :=
  mapM (fun field => let* v := subscript row field in Ok (field, v)) fields.

Definition project (row : value) : res value :=
  let* items := project_items row in
  Ok (VDict items).

(** [_validate_user_id]; [errors] is the list the caller shares with the
    validators, passed in and handed back. *)
Definition _validate_user_id (user_id : value) (errors : list string)
  : value * list string :=
  match int user_id with
  | Ok user_id => (VInt user_id, errors)
  | Raise _ => (VNone, (errors ++ ["invalid user_id"])%list)
  end.

Definition _validate_listing_type (listing_type : value) (errors : list string)
  : res (value * list string) :=
  let* found := in_str_set listing_type ["rent"; "sale"] in
  if negb found
  then Ok (VNone, (errors ++ ["invalid listing_type. Supported values: 'rent', 'sale'"])%list)
  else Ok (listing_type, errors).

Definition _validate_price (price : value) (errors : list string)
  : value * list string :=
  match int price with
  | Raise _ => (VNone, (errors ++ ["invalid price. Must be an integer"])%list)
  | Ok price =>
      if price <? 1
      then (VNone, (errors ++ ["price must be greater than 0"])%list)
      else (VInt price, errors)
  end.

Section Handlers.

(** The option [listing_service_url], and the Listing Service itself: what
    [response.json()] gives for a call, or the exception that [requests]
    raises. *)
Variable listing_service_url : string.
Variable listing_service : http_call -> res value.

(** [ListingsHandler.get], on the three arguments of the query string. *)
Definition ListingsHandler_get (page_num_arg page_size_arg user_id_arg : option string)
  : run :=
  let page_num := get_argument page_num_arg (VInt 1) in
  let page_size := get_argument page_size_arg (VInt 10) in
  match int page_num with
  | Raise _ =>
      {| calls := [];
         outcome := Ok (write_json (VDict [("result", VBool false);
                                           ("errors", VStr "invalid page_num")]) 400) |}
  | Ok page_num =>
      match int page_size with
      | Raise _ =>
          {| calls := [];
             outcome := Ok (write_json (VDict [("result", VBool false);
                                               ("errors", VStr "invalid page_size")]) 400) |}
      | Ok page_size =>
          let user_id := get_argument user_id_arg VNone in
          match (match user_id with
                 | VNone => Ok VNone
                 | _ => let* n := int user_id in Ok (VInt n)
                 end) with
          | Raise _ =>
              {| calls := [];
                 outcome := Ok (write_json (VDict [("result", VBool false);
                                                   ("errors", VStr "invalid user_id")]) 400) |}
          | Ok user_id =>
              let payload := VDict [("page_num", VInt page_num);
                                    ("page_size", VInt page_size);
                                    ("user_id", user_id)] in
              let call := requests_get (listing_service_url ++ "/listings") payload in
              {| calls := [call];
                 outcome :=
                   let* data := listing_service call in
                   let* listings := dict_get data "listings" in
                   let* rows := iterate listings in
                   let* listings := mapM project rows in
                   Ok (write_json (VDict [("result", VBool true);
                                          ("listings", VList listings)]) 200) |}
          end
      end
  end.

(** The first half of [ListingsHandler.post]: the three fields of the
    parsed body [data = json.loads(req_body)], each through its
    validator, which all append to one list of errors. *)
Definition validate (data : value) : res (value * value * value * list string) :=
  let* user_id := dict_get data "user_id" in
  let* listing_type := dict_get data "listing_type" in
  let* price := dict_get data "price" in
  let errors : list string := [] in
  let '(user_id_val, errors) := _validate_user_id user_id errors in
  let* '(listing_type_val, errors) := _validate_listing_type listing_type errors in
  let '(price_val, errors) := _validate_price price errors in
  Ok (user_id_val, listing_type_val, price_val, errors).

(** [ListingsHandler.post] once [data = json.loads(req_body)] is there;
    [ListingsHandler_post_request] below starts from the body. *)
Definition ListingsHandler_post (data : value) : run :=
  match validate data with
  | Raise e => {| calls := []; outcome := Raise e |}
  | Ok (user_id_val, listing_type_val, price_val, errors) =>
      if (0 <? List.length errors)%nat then
        {| calls := [];
           outcome := Ok (write_json (VDict [("result", VBool false);
                                             ("errors", VList (map VStr errors))]) 400) |}
      else
        let payload := VDict [("user_id", user_id_val);
                              ("listing_type", listing_type_val);
                              ("price", price_val)] in
        let call := requests_post (listing_service_url ++ "/listings") None (Some payload) in
        {| calls := [call];
           outcome :=
             let* json := listing_service call in
             Ok (write_json json 200) |}
  end.

End Handlers.

(** *** [UsersHandler] *)

Section UsersForwarding.

(** The option [user_service_url], and the User Service as [requests]
    sees it. *)
Variable user_service_url : string.
Variable user_service : http_call -> res value.

(** [UsersHandler.post], on the parsed body [data = json.loads(req_body)]. *)
Definition UsersHandler_post (data : value) : run :=
  match dict_get data "name" with
  | Raise e => {| calls := []; outcome := Raise e |}
  | Ok user_name =>
      let payload := VDict [("name", user_name)] in
      let call := requests_post (user_service_url ++ "/users") None (Some payload) in
      {| calls := [call];
         outcome :=
           let* json := user_service call in
           Ok (write_json json 200) |}
  end.

End UsersForwarding.

(** *** The body of the request *)

Section RequestBodies.

(** [json.loads]: the parsed value, or the exception it raises on a body
    that is not JSON. *)
Variable json_loads : string -> res value.
Variable listing_service_url : string.
Variable listing_service : http_call -> res value.

(** [ListingsHandler.post] from the body of the request on:
    [json.loads(req_body)] comes first, outside any [try]. *)
Definition ListingsHandler_post_request (req_body : string) : run :=
  match json_loads req_body with
  | Raise e => {| calls := []; outcome := Raise e |}
  | Ok data => ListingsHandler_post listing_service_url listing_service data
  end.

End RequestBodies.

End PublicApi.

(* ================================================================= *)
(** ** Vocabulary of the properties *)

Import Py.

(** The two bodies [UserHandler.get] can send with an empty user. *)
Definition user_not_found : response :=
  write_json (VDict [("result", VBool false); ("user", VDict [])]) 404.

Definition user_empty_ok : response :=
  write_json (VDict [("result", VBool true); ("user", VDict [])]) 200.

(** A stored row as the JSON object the handlers build from it. *)
Definition user_json (r : UserService.row) : value :=
  VDict [("id", VInt (UserService.id r));
         ("name", VStr (UserService.name r));
         ("created_at", VInt (UserService.created_at r));
         ("updated_at", VInt (UserService.updated_at r))].

Definition user_found (r : UserService.row) : response :=
  write_json (VDict [("result", VBool true); ("user", user_json r)]) 200.

(** Newest first: the order [ORDER BY created_at DESC] asks for. *)
Definition newest_first (a b : UserService.row) : Prop :=
  UserService.created_at a >= UserService.created_at b.

(** The rows of page [page_num] when pages hold [page_size] rows: those
    left of the ordering after the first [(page_num - 1) * page_size]
    are skipped and at most [page_size] are kept. *)
Definition page_rows (d : UserService.db) (page_num page_size : Z) : list UserService.row :=
  firstn (Z.to_nat page_size)
    (skipn (Z.to_nat ((page_num - 1) * page_size))
       (UserService.order_by_created_at_desc (UserService.users d))).

Definition users_page (d : UserService.db) (page_num page_size : Z) : response :=
  write_json (VDict [("result", VBool true);
                     ("users", VList (map user_json (page_rows d page_num page_size)))]) 200.

(** C6 as the spec words it: for the page number and the page size that
    the arguments parse to, whatever they are from 1 up, [GET /users]
    answers with that page. *)
Definition lists_page (d : UserService.db) (page_num page_size : Z) : Prop :=
  forall pn ps,
    int (get_argument pn (VInt 1)) = Ok page_num ->
    int (get_argument ps (VInt 10)) = Ok page_size ->
    UserService.UsersHandler_get d pn ps = Ok (users_page d page_num page_size).

(** The largest rowid the table has ever held, as [AUTOINCREMENT] sees it. *)
Definition largest_rowid (d : UserService.db) : Z :=
  Z.max (UserService.sqlite_sequence d) (UserService.max_rowid (UserService.users d)).

(** The requests the User Service routes to a handler that touches the
    table, and the table after serving some. *)
Inductive request : Type :=
| GET_users (page_num page_size : option string)
| POST_users (name : option string) (time_now : Z)
| GET_user (user_id : string).

Definition db_after (d : UserService.db) (q : request) : UserService.db :=
  match q with
  | POST_users name_arg time_now =>
      match UserService.UsersHandler_post d name_arg time_now with
      | Ok (d', _) => d'
      | Raise _ => d
      end
  | _ => d
  end.

Definition serve (d : UserService.db) (qs : list request) : UserService.db :=
  fold_left db_after qs d.

(** The tables the service can hold when it starts on a new file. *)
Definition reachable (d : UserService.db) : Prop :=
  exists qs, d = serve (UserService.init_db None) qs.

(** The table after [n] users were created at times [t+1 .. t+n]. *)
Fixpoint created (n : nat) (t : Z) : UserService.db :=
  match n with
  | O => UserService.init_db None
  | S k => db_after (created k t) (POST_users (Some "user") (t + Z.of_nat n))
  end.

(** The errors of [POST /listings] field by field, in the spec's words:
    [user_id] must parse as an integer; [listing_type] must be exactly
    ["rent"] or ["sale"]; [price] must parse as an integer and be at
    least 1. *)
Definition user_id_errors (user_id : value) : list string :=
  match int user_id with
  | Ok _ => []
  | Raise _ => ["invalid user_id"]
  end.

Definition listing_type_errors (listing_type : value) : list string :=
  match listing_type with
  | VStr s =>
      if String.eqb s "rent" || String.eqb s "sale" then []
      else ["invalid listing_type. Supported values: 'rent', 'sale'"]
  | _ => ["invalid listing_type. Supported values: 'rent', 'sale'"]
  end.

Definition price_errors (price : value) : list string :=
  match int price with
  | Raise _ => ["invalid price. Must be an integer"]
  | Ok n => if n <? 1 then ["price must be greater than 0"] else []
  end.

Definition all_errors (user_id listing_type price : value) : list string :=
  (user_id_errors user_id ++ listing_type_errors listing_type ++ price_errors price)%list.

Definition bad_request (errors : list string) : response :=
  write_json (VDict [("result", VBool false); ("errors", VList (map VStr errors))]) 400.

(** The triple [POST /listings] forwards. *)
Definition listing_payload (user_id : Z) (listing_type : string) (price : Z) : value :=
  VDict [("user_id", VInt user_id); ("listing_type", VStr listing_type);
         ("price", VInt price)].

(** C4 as the spec words it: the one call made is a POST to [u] that
    carries [form] form-encoded, that is, as the body of the request. *)
Definition forwards_form_encoded (r : PublicApi.run) (u : string) (form : value) : Prop :=
  exists c, PublicApi.calls r = [c]
            /\ PublicApi.method c = "POST" /\ PublicApi.url c = u
            /\ PublicApi.data c = Some form.

(** A Listing Service that accepts whatever it is sent. *)
Definition accepting_service (c : PublicApi.http_call) : res value :=
  Ok (VDict [("result", VBool true)]).

(** A Listing Service whose answer has no ["listings"] key. *)
Definition failing_service (c : PublicApi.http_call) : res value :=
  Ok (VDict [("result", VBool false)]).

(** The rowids of a table are 1, 2, ..., in the order of the rows, and
    the counter of [AUTOINCREMENT] is their number. *)
Definition consecutive_ids (d : UserService.db) : Prop :=
  map UserService.id (UserService.users d)
  = map Z.of_nat (seq 1 (List.length (UserService.users d)))
  /\ UserService.sqlite_sequence d = Z.of_nat (List.length (UserService.users d)).

(** A listing that holds the six fields. *)
Definition has_fields (items : list (string * value)) : Prop :=
  forall field, In field PublicApi.fields -> lookup field items <> None.

(** The six fields of a listing with the values it has for them, in the
    order of [fields], and nothing else. *)
Definition projected_items (items : list (string * value)) : list (string * value) :=
  map (fun field => (field,
                     match lookup field items with
                     | Some v => v
                     | None => VNone
                     end))
      PublicApi.fields.

(** A Listing Service whose listings carry fields of its own. *)
Definition verbose_service (c : PublicApi.http_call) : res value :=
  Ok (VDict
        [("result", VBool true);
         ("listings",
          VList [VDict [("price", VInt 4500); ("internal_note", VStr "x");
                        ("id", VInt 1); ("user_id", VInt 2); ("updated_at", VInt 11);
                        ("listing_type", VStr "rent"); ("score", VInt 3);
                        ("created_at", VInt 10)];
                 VDict [("id", VInt 2); ("user_id", VInt 2);
                        ("listing_type", VStr "sale"); ("price", VInt 900000);
                        ("created_at", VInt 20); ("updated_at", VInt 20)]])]).

(** A [json.loads] for a body that is not JSON. *)
Definition rejecting_loads (req_body : string) : res value := Raise ValueError.

(** Every character is a decimal digit. *)
Definition all_digits (s : string) : bool :=
  forallb (fun c => match digit_of c with Some _ => true | None => false end)
          (list_ascii_of_string s).

(** The answer of [GET /users] that lists [rows]. *)
Definition users_listed (rows : list UserService.row) : response :=
  write_json (VDict [("result", VBool true);
                     ("users", VList (map user_json rows))]) 200.

(** The answers of the argument checks. *)
Definition invalid_argument (message : string) : response :=
  write_json (VDict [("result", VBool false); ("errors", VStr message)]) 400.

(** The answer of [GET /listings] on the gateway. *)
Definition listings_listed (listings : list value) : response :=
  write_json (VDict [("result", VBool true); ("listings", VList listings)]) 200.

(** What [GET /listings] makes of its optional [user_id] argument. *)
Definition optional_int (arg : option string) : res value :=
  match arg with
  | None => Ok VNone
  | Some s => let* n := int (VStr s) in Ok (VInt n)
  end.

(* ================================================================= *)
(** ** The User Service: [GET /users/{id}] *)

Section GetUser.
Import UserService.

Lemma length_chars (s : string) : List.length (chars s) = String.length s.
Proof.
  unfold chars. rewrite length_map.
  induction s as [|c s IH]; simpl; congruence.
Qed.

Lemma user_of_row_json (r : row) : user_of_row r = Ok (user_json r).
Proof. reflexivity. Qed.

Lemma mapM_user_of_row (l : list row) :
  mapM user_of_row l = Ok (map user_json l).
Proof.
  induction l as [|r l IH]; simpl; [reflexivity|].
  rewrite IH. reflexivity.
Qed.

(** A string that is not one character long is never bound. *)
Lemma select_by_id_bindings (d : db) (user_id : string) :
  String.length user_id <> 1%nat ->
  select_by_id d (VStr user_id) = Raise ProgrammingError.
Proof.
  intros Hlen. unfold select_by_id, bind_parameters. simpl.
  rewrite length_chars.
  destruct (Nat.eqb_spec (String.length user_id) 1) as [E|_];
    [contradiction|reflexivity].
Qed.

(** One character is bound as a text and compared as a number. *)
Lemma select_by_id_char (d : db) (c : ascii) :
  select_by_id d (VStr (String c EmptyString))
  = Ok (filter (id_equals (SText (String c EmptyString))) (users d)).
Proof. reflexivity. Qed.

Lemma id_equals_digit (c : ascii) (n : Z) (r : row) :
  digit_of c = Some n ->
  id_equals (SText (String c EmptyString)) r = (id r =? n).
Proof.
  intros Hc. unfold id_equals, numeric_affinity. simpl. rewrite Hc.
  reflexivity.
Qed.

Lemma id_equals_not_digit (c : ascii) (r : row) :
  digit_of c = None ->
  id_equals (SText (String c EmptyString)) r = false.
Proof.
  intros Hc. unfold id_equals, numeric_affinity. simpl. rewrite Hc.
  reflexivity.
Qed.

Lemma last_user_nil (user : value) : last_user [] user = Ok user.
Proof. reflexivity. Qed.

Lemma filter_none {A : Type} (f : A -> bool) (l : list A) :
  (forall x, In x l -> f x = false) -> filter f l = [].
Proof.
  induction l as [|x l IH]; simpl; intros H; [reflexivity|].
  rewrite (H x (or_introl eq_refl)). apply IH. intros y Hy. apply H. now right.
Qed.

(** With distinct ids, the rows whose id is [n] are the row [r] alone. *)
Lemma filter_unique (l : list row) (r : row) :
  NoDup (map id l) -> In r l ->
  filter (fun x => id x =? id r) l = [r].
Proof.
  induction l as [|x l IH]; simpl; intros Hnd Hin; [contradiction|].
  inversion Hnd as [|? ? Hx Hnd']; subst.
  destruct Hin as [->|Hin].
  - rewrite Z.eqb_refl. f_equal. apply filter_none.
    intros y Hy. apply Z.eqb_neq. intros E. apply Hx. rewrite <- E.
    now apply in_map.
  - destruct (Z.eqb_spec (id x) (id r)) as [E|_].
    + exfalso. apply Hx. rewrite E. now apply in_map.
    + now apply IH.
Qed.

(** What the handler does right: a one-digit id that is stored is found,
    and the user it sends is the stored row, field by field. *)
Lemma user_get_single_digit_found (d : db) (c : ascii) (r : row) :
  NoDup (map id (users d)) -> In r (users d) -> digit_of c = Some (id r) ->
  UserHandler_get d (String c EmptyString) = Ok (user_found r).
Proof.
  intros Hnd Hin Hc. unfold UserHandler_get. rewrite select_by_id_char.
  rewrite (filter_ext _ (fun x => id x =? id r)
             (fun x => id_equals_digit c (id r) x Hc)).
  rewrite (filter_unique _ _ Hnd Hin). reflexivity.
Qed.

End GetUser.

Section GetUserClaims.
Import UserService.

Lemma digit_of_bound (c : ascii) (n : Z) : digit_of c = Some n -> 0 <= n <= 9.
Proof.
  unfold digit_of.
  destruct ((48 <=? Z.of_nat (nat_of_ascii c)) && (Z.of_nat (nat_of_ascii c) <=? 57)) eqn:E;
    [|discriminate].
  intros [= <-]. apply andb_true_iff in E as [H1 H2].
  apply Z.leb_le in H1, H2. lia.
Qed.

(** C1, at the input where the code departs from it.  When the id is one
    digit and no row has it, the query runs, yields nothing, and the
    handler answers 200 with [{result: true, user: {}}], where the claim
    says 404 with [{result: false, user: {}}]. *)
Theorem user_get_absent_single_digit (d : db) (c : ascii) (n : Z) :
  digit_of c = Some n ->
  (forall r, In r (users d) -> id r <> n) ->
  UserHandler_get d (String c EmptyString) = Ok user_empty_ok
  /\ user_empty_ok <> user_not_found.
Proof.
  intros Hc Habsent. split; [|discriminate].
  unfold UserHandler_get. rewrite select_by_id_char.
  rewrite filter_none; [reflexivity|].
  intros r Hr. rewrite (id_equals_digit c n r Hc).
  apply Z.eqb_neq. now apply Habsent.
Qed.

Lemma user_get_absent_single_digit_witness :
  UserHandler_get (init_db None) "7" = Ok user_empty_ok
  /\ user_empty_ok <> user_not_found.
Proof.
  apply (user_get_absent_single_digit (init_db None) "7"%char 7).
  - reflexivity.
  - simpl. intros r [].
Defined.

(** C2, at the inputs where the code departs from it.  A stored row
    whose id is 10 or more cannot be fetched: asked for by its decimal id,
    the handler answers 404 with [{result: false, user: {}}], where the
    claim says 200 with the stored fields. *)
Theorem user_get_stored_id_from_10_is_404 (d : db) (r : row) (user_id : string) :
  In r (users d) ->
  decimal 0 (list_ascii_of_string user_id) = Some (id r) ->
  10 <= id r ->
  UserHandler_get d user_id = Ok user_not_found
  /\ Ok user_not_found <> Ok (user_found r).
Proof.
  intros _ Hdec Hid. split; [|discriminate].
  unfold UserHandler_get. rewrite select_by_id_bindings; [reflexivity|].
  destruct user_id as [|c [|c' s]]; simpl in *; try lia.
  destruct (digit_of c) as [n|] eqn:Hc; [|discriminate].
  injection Hdec as Hn. apply digit_of_bound in Hc. lia.
Qed.

Lemma user_get_stored_id_from_10_is_404_witness :
  In {| id := 10; name := "user"; created_at := 1010; updated_at := 1010 |}
     (users (created 10 1000))
  /\ UserHandler_get (created 10 1000) "10" = Ok user_not_found.
Proof.
  assert (Hin : In {| id := 10; name := "user"; created_at := 1010; updated_at := 1010 |}
                   (users (created 10 1000))).
  { vm_compute. repeat (try (left; reflexivity); right). }
  split; [exact Hin|].
  apply (user_get_stored_id_from_10_is_404 (created 10 1000) _ "10" Hin).
  - reflexivity.
  - simpl. lia.
Defined.

(** C9.  An id that is not exactly one character long makes the driver
    refuse the parameters of the one-placeholder query, and the handler
    answers 404 with [{result: false, user: {}}] whatever the table holds;
    so whenever the handler answers 200 the id was one character. *)
Theorem user_get_only_single_digit (d : db) (user_id : string) :
  (String.length user_id <> 1%nat ->
     select_by_id d (VStr user_id) = Raise ProgrammingError
     /\ UserHandler_get d user_id = Ok user_not_found)
  /\ (forall resp, UserHandler_get d user_id = Ok resp -> status resp = 200 ->
        String.length user_id = 1%nat).
Proof.
  assert (H : String.length user_id <> 1%nat ->
              select_by_id d (VStr user_id) = Raise ProgrammingError
              /\ UserHandler_get d user_id = Ok user_not_found).
  { intros Hlen. split; [now apply select_by_id_bindings|].
    unfold UserHandler_get. now rewrite select_by_id_bindings. }
  split; [exact H|].
  intros resp Hresp Hstatus.
  destruct (Nat.eq_dec (String.length user_id) 1) as [E|NE]; [exact E|].
  destruct (H NE) as [_ H404]. rewrite H404 in Hresp.
  injection Hresp as <-. discriminate Hstatus.
Qed.

Lemma user_get_only_single_digit_witness :
  In 10 (map id (users (created 10 1000)))
  /\ select_by_id (created 10 1000) (VStr "10") = Raise ProgrammingError
  /\ UserHandler_get (created 10 1000) "10" = Ok user_not_found.
Proof.
  split.
  - vm_compute. repeat (try (left; reflexivity); right).
  - apply (proj1 (user_get_only_single_digit (created 10 1000) "10")).
    simpl. lia.
Defined.

End GetUserClaims.

(* ================================================================= *)
(** ** The User Service: [GET /users] *)

Section ListUsers.
Import UserService.

Lemma insert_desc_perm (r : row) (l : list row) :
  Permutation (insert_desc r l) (r :: l).
Proof.
  induction l as [|x l IH]; simpl; [apply Permutation_refl|].
  destruct (created_at x <=? created_at r); [apply Permutation_refl|].
  eapply perm_trans; [apply perm_skip, IH|apply perm_swap].
Qed.

Lemma order_by_perm (l : list row) :
  Permutation (order_by_created_at_desc l) l.
Proof.
  induction l as [|r l IH]; simpl; [apply perm_nil|].
  eapply perm_trans; [apply insert_desc_perm|now apply perm_skip].
Qed.

Lemma insert_desc_sorted (r : row) (l : list row) :
  StronglySorted newest_first l -> StronglySorted newest_first (insert_desc r l).
Proof.
  induction l as [|x l IH]; simpl; intros Hs.
  - constructor; constructor.
  - inversion Hs as [|? ? Hl Hx]; subst.
    destruct (Z.leb_spec (created_at x) (created_at r)) as [Hle|Hlt].
    + constructor; [exact Hs|].
      constructor; [unfold newest_first; lia|].
      eapply Forall_impl; [|exact Hx]. unfold newest_first. intros; lia.
    + constructor; [now apply IH|].
      eapply Permutation_Forall; [apply Permutation_sym, insert_desc_perm|].
      constructor; [unfold newest_first; lia|exact Hx].
Qed.

Lemma order_by_sorted (l : list row) :
  StronglySorted newest_first (order_by_created_at_desc l).
Proof.
  induction l as [|r l IH]; simpl; [constructor|now apply insert_desc_sorted].
Qed.

Lemma sorted_skipn {A : Type} (R : A -> A -> Prop) (n : nat) (l : list A) :
  StronglySorted R l -> StronglySorted R (skipn n l).
Proof.
  revert l. induction n as [|n IH]; intros l Hs; [exact Hs|].
  destruct l as [|x l]; [exact Hs|]. simpl. apply IH.
  now inversion Hs.
Qed.

Lemma sorted_firstn {A : Type} (R : A -> A -> Prop) (n : nat) (l : list A) :
  StronglySorted R l -> StronglySorted R (firstn n l).
Proof.
  revert l. induction n as [|n IH]; intros l Hs; [constructor|].
  destruct l as [|x l]; [constructor|]. simpl.
  inversion Hs as [|? ? Hl Hx]; subst.
  constructor; [now apply IH|].
  rewrite Forall_forall in *. intros y Hy. apply Hx.
  rewrite <- (firstn_skipn n l). apply in_or_app. now left.
Qed.

Lemma bind_two_integers (limit offset : Z) :
  fits_int64 limit = true -> fits_int64 offset = true ->
  bind_parameters 2 (VList [VInt limit; VInt offset])
  = Ok [SInteger limit; SInteger offset].
Proof.
  intros Hl Ho. unfold bind_parameters. simpl. rewrite Hl, Ho. reflexivity.
Qed.

Lemma users_get_page (d : db) (pn ps : option string) (page_num page_size : Z) :
  int (get_argument pn (VInt 1)) = Ok page_num ->
  int (get_argument ps (VInt 10)) = Ok page_size ->
  1 <= page_num -> 1 <= page_size ->
  page_size <= max_int64 -> (page_num - 1) * page_size <= max_int64 ->
  UsersHandler_get d pn ps = Ok (users_page d page_num page_size).
Proof.
  intros Hpn Hps H1 H2 H3 H4.
  unfold UsersHandler_get. rewrite Hpn, Hps.
  unfold select_page. rewrite bind_two_integers.
  - cbn [bind]. unfold limit_offset.
    destruct (Z.ltb_spec page_size 0) as [Hneg|_]; [lia|].
    rewrite mapM_user_of_row. reflexivity.
  - unfold fits_int64. apply andb_true_iff. split; apply Z.leb_le; [lia|exact H3].
  - unfold fits_int64. apply andb_true_iff. split; apply Z.leb_le; [nia|exact H4].
Qed.

End ListUsers.

Section ListUsersClaims.
Import UserService.

(** C6 fails as stated: a page size of 2^63 is an integer from 1 up, but
    the driver cannot bind it, and the handler ends in [OverflowError]
    instead of answering with a page. *)
Lemma users_get_page_size_overflow :
  1 <= 1 /\ 1 <= 2 ^ 63
  /\ UsersHandler_get (init_db None) None (Some "9223372036854775808")
     = Raise OverflowError
  /\ ~ lists_page (init_db None) 1 (2 ^ 63).
Proof.
  assert (E : UsersHandler_get (init_db None) None (Some "9223372036854775808")
              = Raise OverflowError) by (vm_compute; reflexivity).
  split; [lia|split; [lia|split; [exact E|]]].
  intros H.
  specialize (H None (Some "9223372036854775808") eq_refl eq_refl).
  rewrite E in H. discriminate H.
Qed.

(** C6, amended.  For every table, and for a page number and a page size
    from 1 up such that the page size and the offset
    [(page_num - 1) * page_size] fit in a signed 64-bit integer,
    [GET /users] answers 200 with at most [page_size] users, newest first,
    namely the rows of the [created_at]-descending ordering of the table
    that follow its first [(page_num - 1) * page_size] rows; page 2 of
    size 10 is rows 11 to 20 of that ordering. *)
Theorem users_get_pagination
  (d : db) (pn ps : option string) (page_num page_size : Z) :
  int (get_argument pn (VInt 1)) = Ok page_num ->
  int (get_argument ps (VInt 10)) = Ok page_size ->
  1 <= page_num -> 1 <= page_size ->
  page_size <= max_int64 -> (page_num - 1) * page_size <= max_int64 ->
  let ordering := order_by_created_at_desc (users d) in
  let page := page_rows d page_num page_size in
  UsersHandler_get d pn ps
  = Ok (write_json (VDict [("result", VBool true);
                           ("users", VList (map user_json page))]) 200)
  /\ Z.of_nat (List.length page) <= page_size
  /\ StronglySorted newest_first page
  /\ StronglySorted newest_first ordering
  /\ Permutation ordering (users d)
  /\ (forall i : nat, Z.of_nat i < page_size ->
        nth_error page i
        = nth_error ordering (Z.to_nat ((page_num - 1) * page_size) + i))
  /\ UsersHandler_get d (Some "2") (Some "10")
     = Ok (write_json
             (VDict [("result", VBool true);
                     ("users", VList (map user_json (firstn 10 (skipn 10 ordering))))])
             200).
Proof.
  intros Hpn Hps H1 H2 H3 H4 ordering page.
  split; [now apply users_get_page|].
  split.
  { unfold page, page_rows.
    pose proof (firstn_le_length (Z.to_nat page_size)
                  (skipn (Z.to_nat ((page_num - 1) * page_size))
                     (order_by_created_at_desc (users d)))) as Hlen.
    lia. }
  split; [apply sorted_firstn, sorted_skipn, order_by_sorted|].
  split; [apply order_by_sorted|].
  split; [apply order_by_perm|].
  split;
    [|apply (users_get_page d (Some "2") (Some "10") 2 10 eq_refl eq_refl);
      vm_compute; discriminate].
  intros i Hi. unfold page, page_rows.
  rewrite nth_error_firstn, nth_error_skipn.
  destruct (Nat.ltb_spec i (Z.to_nat page_size)) as [_|Hge]; [reflexivity|lia].
Qed.

Lemma users_get_pagination_witness :
  UsersHandler_get (created 3 1000) (Some "2") (Some "2")
  = Ok (write_json
          (VDict [("result", VBool true);
                  ("users",
                   VList [VDict [("id", VInt 1); ("name", VStr "user");
                                 ("created_at", VInt 1001);
                                 ("updated_at", VInt 1001)]])]) 200).
Proof.
  exact (proj1 (users_get_pagination (created 3 1000) (Some "2") (Some "2") 2 2
                  eq_refl eq_refl ltac:(lia) ltac:(lia)
                  ltac:(vm_compute; discriminate) ltac:(vm_compute; discriminate))).
Defined.

End ListUsersClaims.

(* ================================================================= *)
(** ** The User Service: [POST /users] *)

Section CreateUser.
Import UserService.

Lemma max_rowid_ge (l : list row) (r : row) : In r l -> id r <= max_rowid l.
Proof.
  induction l as [|x l IH]; simpl; [contradiction|].
  intros [->|Hin]; [lia|]. specialize (IH Hin). lia.
Qed.

Lemma max_rowid_app (l : list row) (r : row) :
  max_rowid (l ++ [r]) = Z.max (max_rowid l) (Z.max (id r) 0).
Proof.
  induction l as [|x l IH]; simpl; [lia|]. rewrite IH. lia.
Qed.

Lemma max_rowid_nonneg (l : list row) : 0 <= max_rowid l.
Proof. induction l as [|x l IH]; simpl; lia. Qed.

(** What a call of the handler that returns has done. *)
Lemma users_post_inv (d d' : db) (user_name : string) (time_now : Z) (resp : response) :
  UsersHandler_post d (Some user_name) time_now = Ok (d', resp) ->
  let r := {| id := largest_rowid d + 1; name := user_name;
              created_at := time_now; updated_at := time_now |} in
  fits_int64 time_now = true
  /\ largest_rowid d < max_int64
  /\ d' = {| users := users d ++ [r]; sqlite_sequence := largest_rowid d + 1 |}
  /\ resp = user_found r.
Proof.
  unfold UsersHandler_post, insert_user, bind_parameters. simpl.
  destruct (fits_int64 time_now) eqn:Hfit; simpl; [|discriminate].
  fold (largest_rowid d).
  destruct (Z.ltb_spec (largest_rowid d) max_int64) as [Hlt|Hge]; simpl; [|discriminate].
  intros [= <- <-]. repeat split; assumption.
Qed.

Lemma users_post_ok (d : db) (user_name : string) (time_now : Z) :
  fits_int64 time_now = true -> largest_rowid d < max_int64 ->
  let r := {| id := largest_rowid d + 1; name := user_name;
              created_at := time_now; updated_at := time_now |} in
  UsersHandler_post d (Some user_name) time_now
  = Ok ({| users := users d ++ [r]; sqlite_sequence := largest_rowid d + 1 |},
        user_found r).
Proof.
  intros Hfit Hlt. unfold UsersHandler_post, insert_user, bind_parameters. simpl.
  rewrite Hfit. simpl. fold (largest_rowid d).
  destruct (Z.ltb_spec (largest_rowid d) max_int64) as [_|Hge]; [reflexivity|lia].
Qed.

Lemma largest_rowid_after_post (d d' : db) (user_name : string) (time_now : Z) (resp : response) :
  UsersHandler_post d (Some user_name) time_now = Ok (d', resp) ->
  largest_rowid d' = largest_rowid d + 1.
Proof.
  intros H. apply users_post_inv in H as (_ & _ & -> & _).
  unfold largest_rowid at 1. cbn [users sqlite_sequence].
  rewrite max_rowid_app. cbn [id].
  pose proof (max_rowid_nonneg (users d)) as Hnn.
  assert (Hle : max_rowid (users d) <= largest_rowid d) by (unfold largest_rowid; lia).
  lia.
Qed.

Lemma largest_rowid_db_after (d : db) (q : request) :
  largest_rowid d <= largest_rowid (db_after d q).
Proof.
  destruct q as [pn ps|[user_name|] time_now|user_id]; unfold db_after;
    try apply Z.le_refl.
  destruct (UsersHandler_post d (Some user_name) time_now) as [[d' resp]|e] eqn:E;
    [|apply Z.le_refl].
  rewrite (largest_rowid_after_post _ _ _ _ _ E). lia.
Qed.

Lemma largest_rowid_serve (qs : list request) (d : db) :
  largest_rowid d <= largest_rowid (serve d qs).
Proof.
  revert d. induction qs as [|q qs IH]; intros d; simpl; [lia|].
  etransitivity; [apply largest_rowid_db_after|apply IH].
Qed.

Lemma timestamps_db_after (d : db) (q : request) :
  Forall (fun r => created_at r = updated_at r) (users d) ->
  Forall (fun r => created_at r = updated_at r) (users (db_after d q)).
Proof.
  intros Hd.
  destruct q as [pn ps|[user_name|] time_now|user_id]; unfold db_after;
    try exact Hd.
  destruct (UsersHandler_post d (Some user_name) time_now) as [[d' resp]|e] eqn:E;
    [|exact Hd].
  apply users_post_inv in E as (_ & _ & -> & _). simpl.
  apply Forall_app. split; [exact Hd|]. constructor; [reflexivity|constructor].
Qed.

Lemma timestamps_serve (qs : list request) (d : db) :
  Forall (fun r => created_at r = updated_at r) (users d) ->
  Forall (fun r => created_at r = updated_at r) (users (serve d qs)).
Proof.
  revert d. induction qs as [|q qs IH]; intros d Hd; simpl; [exact Hd|].
  apply IH, timestamps_db_after, Hd.
Qed.

Lemma user_found_inj (r r' : row) : user_found r = user_found r' -> r = r'.
Proof.
  destruct r, r'. unfold user_found, user_json, write_json. simpl.
  intros [= -> -> -> ->]. reflexivity.
Qed.

(** C7.  [POST /users] with a name answers whenever the driver can store
    the row (the clock reading fits in 64 bits and the rowids are not
    used up); every answer is 200 with the row it has just stored, whose
    [created_at] and [updated_at] are both the clock reading; of two calls
    that answer, whatever is served in between, the later returns the
    larger id; and in every table the service can reach from a new file,
    each row has [created_at <= updated_at]. *)
Theorem users_post_timestamps_and_ids (d : db) (user_name : string) (time_now : Z) :
  (fits_int64 time_now = true -> largest_rowid d < max_int64 ->
   exists d' r, UsersHandler_post d (Some user_name) time_now = Ok (d', user_found r))
  /\ (forall d' resp,
        UsersHandler_post d (Some user_name) time_now = Ok (d', resp) ->
        exists r, resp = user_found r /\ In r (users d')
                  /\ name r = user_name
                  /\ created_at r = time_now /\ created_at r = updated_at r)
  /\ (forall d1 r1 qs name2 time2 d2 r2,
        UsersHandler_post d (Some user_name) time_now = Ok (d1, user_found r1) ->
        UsersHandler_post (serve d1 qs) (Some name2) time2 = Ok (d2, user_found r2) ->
        id r1 < id r2)
  /\ (reachable d -> Forall (fun r => created_at r <= updated_at r) (users d)).
Proof.
  split; [|split; [|split]].
  - intros Hfit Hlt. eexists _, _. now apply users_post_ok.
  - intros d' resp H. apply users_post_inv in H as (_ & _ & -> & ->).
    eexists. split; [reflexivity|]. simpl.
    split; [apply in_or_app; right; now left|]. repeat split.
  - intros d1 r1 qs name2 time2 d2 r2 H1 H2.
    pose proof (largest_rowid_after_post _ _ _ _ _ H1) as Hd1.
    pose proof (largest_rowid_serve qs d1) as Hmono.
    apply users_post_inv in H1 as (_ & _ & _ & E1).
    apply users_post_inv in H2 as (_ & _ & _ & E2).
    apply user_found_inj in E1, E2. subst r1 r2. simpl. lia.
  - intros [qs ->].
    eapply Forall_impl; [|apply timestamps_serve; constructor].
    simpl. intros r Hr. lia.
Qed.

Lemma users_post_timestamps_and_ids_witness :
  exists d' r,
    UsersHandler_post (init_db None) (Some "ann") 1700000000000000
    = Ok (d', user_found r).
Proof.
  apply (proj1 (users_post_timestamps_and_ids (init_db None) "ann" 1700000000000000)).
  - reflexivity.
  - reflexivity.
Defined.

End CreateUser.

(* ================================================================= *)
(** ** The gateway: [POST /listings] *)

Section CreateListing.
Import PublicApi.

Variable listing_service_url : string.
Variable listing_service : http_call -> res value.

Lemma validate_user_id_errors (user_id : value) (errors : list string) :
  snd (_validate_user_id user_id errors) = (errors ++ user_id_errors user_id)%list.
Proof.
  unfold _validate_user_id, user_id_errors.
  destruct (int user_id); simpl; [now rewrite app_nil_r|reflexivity].
Qed.

Lemma validate_listing_type_errors (listing_type : value) (errors : list string) :
  hashable listing_type = true ->
  exists v, _validate_listing_type listing_type errors
            = Ok (v, (errors ++ listing_type_errors listing_type)%list).
Proof.
  unfold _validate_listing_type, listing_type_errors.
  destruct listing_type; simpl; try discriminate; intros _;
    try (eexists; reflexivity).
  rewrite orb_false_r.
  destruct (String.eqb s "rent" || String.eqb s "sale"); simpl;
    eexists; [now rewrite app_nil_r|reflexivity].
Qed.

Lemma validate_price_errors (price : value) (errors : list string) :
  snd (_validate_price price errors) = (errors ++ price_errors price)%list.
Proof.
  unfold _validate_price, price_errors.
  destruct (int price) as [n|e]; simpl; [|reflexivity].
  destruct (n <? 1); simpl; [reflexivity|now rewrite app_nil_r].
Qed.

(** Every validator runs and appends to the same list, whatever the
    others found. *)
Lemma validate_collects (items : list (string * value)) (user_id listing_type price : value) :
  dict_get (VDict items) "user_id" = Ok user_id ->
  dict_get (VDict items) "listing_type" = Ok listing_type ->
  dict_get (VDict items) "price" = Ok price ->
  hashable listing_type = true ->
  exists u l p,
    validate (VDict items) = Ok (u, l, p, all_errors user_id listing_type price).
Proof.
  intros Hu Hl Hp Hh. unfold validate. rewrite Hu, Hl, Hp. cbn [bind].
  pose proof (validate_user_id_errors user_id []) as Eu.
  destruct (_validate_user_id user_id []) as [u errors1]. simpl in Eu. subst errors1.
  destruct (validate_listing_type_errors listing_type (user_id_errors user_id) Hh)
    as [l El].
  rewrite El. cbn [bind].
  pose proof (validate_price_errors price
                (user_id_errors user_id ++ listing_type_errors listing_type)) as Ep.
  destruct (_validate_price price _) as [p errors3]. simpl in Ep. subst errors3.
  exists u, l, p. unfold all_errors. now rewrite app_assoc.
Qed.

(** What the handler does right: when the [listing_type] of the body can
    be hashed and some field is invalid, it answers 400 with every error
    and calls nobody. *)
Lemma listings_post_collects_all_errors
  (items : list (string * value)) (user_id listing_type price : value) :
  dict_get (VDict items) "user_id" = Ok user_id ->
  dict_get (VDict items) "listing_type" = Ok listing_type ->
  dict_get (VDict items) "price" = Ok price ->
  hashable listing_type = true ->
  all_errors user_id listing_type price <> [] ->
  ListingsHandler_post listing_service_url listing_service (VDict items)
  = {| calls := [];
       outcome := Ok (bad_request (all_errors user_id listing_type price)) |}.
Proof.
  intros Hu Hl Hp Hh Herr.
  destruct (validate_collects items _ _ _ Hu Hl Hp Hh) as (u & l & p & E).
  unfold ListingsHandler_post. rewrite E.
  destruct (all_errors user_id listing_type price) as [|e errors];
    [contradiction|reflexivity].
Qed.

(** The body of the spec's example gets its three errors. *)
Lemma listings_post_three_errors :
  ListingsHandler_post listing_service_url listing_service
    (VDict [("user_id", VStr "abc"); ("listing_type", VStr "lease"); ("price", VInt 0)])
  = {| calls := [];
       outcome := Ok (bad_request
                        ["invalid user_id";
                         "invalid listing_type. Supported values: 'rent', 'sale'";
                         "price must be greater than 0"]) |}.
Proof. reflexivity. Qed.

(** C3, at the input where the code departs from it.  A [listing_type]
    that is a JSON array is invalid, but testing it against the set
    ["rent", "sale"] raises [TypeError], which [_validate_listing_type]
    does not catch: the handler ends there, with no call to the Listing
    Service and without the 400 answer that lists the errors. *)
Theorem listings_post_unhashable_listing_type :
  listing_type_errors (VList []) <> []
  /\ ListingsHandler_post listing_service_url listing_service
       (VDict [("user_id", VInt 5); ("listing_type", VList []); ("price", VInt 1)])
     = {| calls := []; outcome := Raise TypeError |}.
Proof. split; [discriminate|reflexivity]. Qed.

End CreateListing.

Section ForwardListing.
Import PublicApi.

Lemma validate_price_accepts (price : value) (errors : list string) (n : Z) :
  int price = Ok n -> 1 <= n -> _validate_price price errors = (VInt n, errors).
Proof.
  unfold _validate_price. intros -> Hn.
  destruct (Z.ltb_spec n 1); [lia|reflexivity].
Qed.

(** C5.  [_validate_price] on any price and any list of errors so far:
    a price [int()] rejects adds "invalid price. Must be an integer"; one
    that parses to less than 1 adds "price must be greater than 0"; one
    that parses to 1 or more adds nothing and the parsed integer is the
    validated price. *)
Theorem validate_price_cases (price : value) (errors : list string) :
  (forall e, int price = Raise e ->
     _validate_price price errors
     = (VNone, (errors ++ ["invalid price. Must be an integer"])%list))
  /\ (forall n, int price = Ok n -> n < 1 ->
        _validate_price price errors
        = (VNone, (errors ++ ["price must be greater than 0"])%list))
  /\ (forall n, int price = Ok n -> 1 <= n ->
        _validate_price price errors = (VInt n, errors)).
Proof.
  unfold _validate_price. repeat split.
  - intros e ->. reflexivity.
  - intros n -> Hn. destruct (Z.ltb_spec n 1); [reflexivity|lia].
  - intros n Hp Hn. fold (_validate_price price errors).
    now apply validate_price_accepts.
Qed.

Lemma validate_price_cases_witness :
  _validate_price (VStr "12.5") ["invalid user_id"]
  = (VNone, ["invalid user_id"; "invalid price. Must be an integer"])
  /\ _validate_price (VInt 0) [] = (VNone, ["price must be greater than 0"])
  /\ _validate_price (VStr "1500") [] = (VInt 1500, []).
Proof.
  split; [|split].
  - apply (proj1 (validate_price_cases (VStr "12.5") ["invalid user_id"]) ValueError).
    reflexivity.
  - apply (proj1 (proj2 (validate_price_cases (VInt 0) [])) 0).
    + reflexivity.
    + lia.
  - apply (proj2 (proj2 (validate_price_cases (VStr "1500") [])) 1500).
    + reflexivity.
    + lia.
Defined.

Lemma validate_valid (items : list (string * value))
  (user_id price : value) (listing_type : string) (u p : Z) :
  dict_get (VDict items) "user_id" = Ok user_id -> int user_id = Ok u ->
  dict_get (VDict items) "listing_type" = Ok (VStr listing_type) ->
  listing_type = "rent" \/ listing_type = "sale" ->
  dict_get (VDict items) "price" = Ok price -> int price = Ok p -> 1 <= p ->
  validate (VDict items) = Ok (VInt u, VStr listing_type, VInt p, []).
Proof.
  intros Hu Eu Hl Hlt Hp Ep Hpos.
  unfold validate. rewrite Hu, Hl, Hp. cbn [bind].
  unfold _validate_user_id. rewrite Eu.
  assert (El : _validate_listing_type (VStr listing_type) []
               = Ok (VStr listing_type, [])).
  { destruct Hlt as [-> | ->]; reflexivity. }
  rewrite El. cbn [bind].
  rewrite (validate_price_accepts price [] p Ep Hpos).
  reflexivity.
Qed.

End ForwardListing.

Section ForwardListingClaims.
Import PublicApi.

(** C4 fails as stated: for the body of the spec's own example the triple
    is not sent form-encoded.  The handler gives it to [requests.post] as
    [params], which go into the query string, and the request has no
    body. *)
Lemma listings_post_not_form_encoded :
  ~ forwards_form_encoded
      (ListingsHandler_post "http://listings" accepting_service
         (VDict [("user_id", VInt 5); ("listing_type", VStr "rent");
                 ("price", VInt 1500)]))
      "http://listings/listings" (listing_payload 5 "rent" 1500).
Proof.
  intros (c & Hc & _ & _ & Hdata).
  injection Hc as <-. discriminate Hdata.
Qed.

(** C4, amended.  For every body whose [user_id] parses as an integer,
    whose [listing_type] is exactly "rent" or "sale" and whose [price]
    parses as an integer from 1 up, the gateway makes exactly one call: a
    POST to [/listings] of the Listing Service that carries the validated
    triple as its query parameters and no form body; it then answers 200
    with the JSON body of the Listing Service unchanged. *)
Theorem listings_post_forwards
  (listing_service_url : string) (listing_service : http_call -> res value)
  (items : list (string * value)) (user_id price : value)
  (listing_type : string) (u p : Z) :
  dict_get (VDict items) "user_id" = Ok user_id -> int user_id = Ok u ->
  dict_get (VDict items) "listing_type" = Ok (VStr listing_type) ->
  listing_type = "rent" \/ listing_type = "sale" ->
  dict_get (VDict items) "price" = Ok price -> int price = Ok p -> 1 <= p ->
  let call := {| method := "POST";
                 url := listing_service_url ++ "/listings";
                 params := Some (listing_payload u listing_type p);
                 data := None |} in
  let r := ListingsHandler_post listing_service_url listing_service (VDict items) in
  calls r = [call]
  /\ (forall json, listing_service call = Ok json ->
        outcome r = Ok (write_json json 200))
  /\ (forall e, listing_service call = Raise e -> outcome r = Raise e).
Proof.
  intros Hu Eu Hl Hlt Hp Ep Hpos call r.
  unfold r, ListingsHandler_post.
  rewrite (validate_valid items user_id price listing_type u p Hu Eu Hl Hlt Hp Ep Hpos).
  cbn [List.length Nat.ltb Nat.leb calls outcome].
  fold (listing_payload u listing_type p). unfold requests_post. fold call.
  split; [reflexivity|].
  split; [intros json ->|intros e ->]; reflexivity.
Qed.

Lemma listings_post_forwards_witness :
  let body := VDict [("user_id", VInt 5); ("listing_type", VStr "rent");
                     ("price", VInt 1500)] in
  let call := {| method := "POST"; url := "http://listings/listings";
                 params := Some (listing_payload 5 "rent" 1500);
                 data := None |} in
  calls (ListingsHandler_post "http://listings" accepting_service body) = [call]
  /\ outcome (ListingsHandler_post "http://listings" accepting_service body)
     = Ok (write_json (VDict [("result", VBool true)]) 200).
Proof.
  intros body call.
  destruct (listings_post_forwards "http://listings" accepting_service
              [("user_id", VInt 5); ("listing_type", VStr "rent"); ("price", VInt 1500)]
              (VInt 5) (VInt 1500) "rent" 5 1500
              eq_refl eq_refl eq_refl (or_introl eq_refl) eq_refl eq_refl
              ltac:(lia)) as (Hcalls & Hok & _).
  split; [exact Hcalls|].
  apply Hok. reflexivity.
Defined.

End ForwardListingClaims.

(* ================================================================= *)
(** ** The gateway: [GET /listings] *)

Section ReadListings.
Import PublicApi.

(** A row projects exactly when it is a dict with the six keys, and the
    projection holds the six values in the order of [fields]. *)
Lemma project_items_inv (row : value) (items : list (string * value)) :
  project_items row = Ok items ->
  exists its v1 v2 v3 v4 v5 v6,
    row = VDict its
    /\ lookup "id" its = Some v1 /\ lookup "user_id" its = Some v2
    /\ lookup "listing_type" its = Some v3 /\ lookup "price" its = Some v4
    /\ lookup "created_at" its = Some v5 /\ lookup "updated_at" its = Some v6
    /\ items = [("id", v1); ("user_id", v2); ("listing_type", v3);
                ("price", v4); ("created_at", v5); ("updated_at", v6)].
Proof.
  unfold project_items, fields.
  destruct row as [| | | | |l|its]; try discriminate.
  cbn [mapM subscript bind].
  destruct (lookup "id" its) as [v1|] eqn:H1; [|discriminate].
  destruct (lookup "user_id" its) as [v2|] eqn:H2; [|discriminate].
  destruct (lookup "listing_type" its) as [v3|] eqn:H3; [|discriminate].
  destruct (lookup "price" its) as [v4|] eqn:H4; [|discriminate].
  destruct (lookup "created_at" its) as [v5|] eqn:H5; [|discriminate].
  destruct (lookup "updated_at" its) as [v6|] eqn:H6; [|discriminate].
  cbn [bind]. intros [= <-].
  exists its, v1, v2, v3, v4, v5, v6. repeat split; reflexivity || assumption.
Qed.

Lemma lookup_not_in (k : string) (items : list (string * value)) :
  ~ In k (map fst items) -> lookup k items = None.
Proof.
  induction items as [|[k' v] items IH]; simpl; intros Hk; [reflexivity|].
  destruct (String.eqb_spec k k') as [->|_]; [exfalso; apply Hk; now left|].
  apply IH. intros Hin. apply Hk. now right.
Qed.

(** A failing element makes the whole comprehension fail, with the
    exception of some element. *)
Lemma mapM_raises {A B : Type} (f : A -> res B) (l : list A) (x : A) :
  In x l -> (forall y, f x <> Ok y) ->
  exists x' e, In x' l /\ f x' = Raise e /\ mapM f l = Raise e.
Proof.
  induction l as [|a l IH]; simpl; intros Hin Hx; [contradiction|].
  destruct (f a) as [b|e] eqn:Ea.
  - destruct Hin as [->|Hin]; [now elim (Hx b)|].
    destruct (IH Hin Hx) as (x' & e & Hx' & Ex' & ->).
    exists x', e. repeat split; auto.
  - exists a, e. repeat split; auto.
Qed.

Lemma mapM_Forall2 {A B : Type} (f : A -> res B) (l : list A) (l' : list B) :
  mapM f l = Ok l' -> Forall2 (fun x y => f x = Ok y) l l'.
Proof.
  revert l'. induction l as [|a l IH]; simpl; intros l'.
  - intros [= <-]. constructor.
  - destruct (f a) as [b|e] eqn:Ea; [|discriminate]. simpl.
    destruct (mapM f l) as [bs|e]; [|discriminate]. simpl.
    intros [= <-]. constructor; [exact Ea|now apply IH].
Qed.

(** [row[field]] raises [KeyError] or [TypeError] only. *)
Lemma subscript_raises (row : value) (k : string) (e : exn) :
  subscript row k = Raise e -> e = KeyError \/ e = TypeError.
Proof.
  destruct row as [| | | | |l|its]; simpl; try (intros [= <-]; now right).
  destruct (lookup k its); [discriminate|]. intros [= <-]. now left.
Qed.

Lemma project_raises (row : value) (e : exn) :
  project row = Raise e -> e = KeyError \/ e = TypeError.
Proof.
  unfold project, project_items, fields. cbn [mapM].
  repeat (match goal with
          | |- context [subscript row ?k] =>
              let E := fresh "E" in
              destruct (subscript row k) eqn:E;
              [cbn [bind]
              |cbn [bind]; intros [= <-]; eapply subscript_raises; eassumption]
          end).
  discriminate.
Qed.

(** A row that lacks a field does not project. *)
Lemma project_missing (row : value) (field : string) :
  In field fields -> (forall v, subscript row field <> Ok v) ->
  forall p, project row <> Ok p.
Proof.
  intros Hin Hmiss p Hp. unfold project in Hp.
  destruct (project_items row) as [items|e] eqn:E; [|discriminate].
  apply project_items_inv in E
    as (its & v1 & v2 & v3 & v4 & v5 & v6 & -> & H1 & H2 & H3 & H4 & H5 & H6 & _).
  simpl in Hin.
  destruct Hin as [<-|[<-|[<-|[<-|[<-|[<-|[]]]]]]]; simpl in Hmiss.
  - rewrite H1 in Hmiss. now elim (Hmiss v1).
  - rewrite H2 in Hmiss. now elim (Hmiss v2).
  - rewrite H3 in Hmiss. now elim (Hmiss v3).
  - rewrite H4 in Hmiss. now elim (Hmiss v4).
  - rewrite H5 in Hmiss. now elim (Hmiss v5).
  - rewrite H6 in Hmiss. now elim (Hmiss v6).
Qed.

(** When the arguments are accepted, the handler makes its one call and
    its outcome is the projection loop run on the answer. *)
Lemma listings_get_outcome
  (listing_service_url : string) (listing_service : http_call -> res value)
  (pn ps uid : option string) (call : http_call) :
  calls (ListingsHandler_get listing_service_url listing_service pn ps uid) = [call] ->
  outcome (ListingsHandler_get listing_service_url listing_service pn ps uid)
  = (let* data := listing_service call in
     let* listings := dict_get data "listings" in
     let* rows := iterate listings in
     let* listings := mapM project rows in
     Ok (write_json (VDict [("result", VBool true);
                            ("listings", VList listings)]) 200)).
Proof.
  unfold ListingsHandler_get.
  destruct (int (get_argument pn (VInt 1))) as [page_num|]; [|discriminate].
  destruct (int (get_argument ps (VInt 10))) as [page_size|]; [|discriminate].
  match goal with
  | |- context [match ?m with Ok _ => _ | Raise _ => _ end] =>
      destruct m as [user_id|]; [|discriminate]
  end.
  cbn [calls outcome]. intros [= <-]. reflexivity.
Qed.

End ReadListings.

Section ReadListingsClaims.
Import PublicApi.

Lemma Forall2_mapM {A B : Type} (f : A -> res B) (l : list A) (l' : list B) :
  Forall2 (fun x y => f x = Ok y) l l' -> mapM f l = Ok l'.
Proof.
  induction 1 as [|x y l l' Hxy _ IH]; simpl; [reflexivity|].
  rewrite Hxy, IH. reflexivity.
Qed.

Lemma has_fields_values (items : list (string * value)) :
  has_fields items ->
  exists v1 v2 v3 v4 v5 v6,
    lookup "id" items = Some v1 /\ lookup "user_id" items = Some v2
    /\ lookup "listing_type" items = Some v3 /\ lookup "price" items = Some v4
    /\ lookup "created_at" items = Some v5 /\ lookup "updated_at" items = Some v6.
Proof.
  intros H.
  assert (Hf : forall field, In field fields -> exists v, lookup field items = Some v).
  { intros field Hin. specialize (H field Hin).
    destruct (lookup field items) as [v|]; [now exists v|now elim H]. }
  destruct (Hf "id") as [v1 H1]; [simpl; tauto|].
  destruct (Hf "user_id") as [v2 H2]; [simpl; tauto|].
  destruct (Hf "listing_type") as [v3 H3]; [simpl; tauto|].
  destruct (Hf "price") as [v4 H4]; [simpl; tauto|].
  destruct (Hf "created_at") as [v5 H5]; [simpl; tauto|].
  destruct (Hf "updated_at") as [v6 H6]; [simpl; tauto|].
  exists v1, v2, v3, v4, v5, v6. repeat split; assumption.
Qed.

(** A listing that holds the six fields projects, whatever else it
    holds, and to the six fields alone. *)
Lemma project_has_fields (items : list (string * value)) :
  has_fields items -> project (VDict items) = Ok (VDict (projected_items items)).
Proof.
  intros H.
  destruct (has_fields_values items H)
    as (v1 & v2 & v3 & v4 & v5 & v6 & H1 & H2 & H3 & H4 & H5 & H6).
  unfold project, project_items, projected_items, fields.
  cbn [mapM subscript bind map].
  rewrite H1, H2, H3, H4, H5, H6. reflexivity.
Qed.

Lemma projected_items_has_fields (items : list (string * value)) :
  has_fields (projected_items items).
Proof.
  intros field Hin. simpl in Hin.
  destruct Hin as [<-|[<-|[<-|[<-|[<-|[<-|[]]]]]]]; discriminate.
Qed.

Lemma projected_items_again (items : list (string * value)) :
  projected_items (projected_items items) = projected_items items.
Proof. reflexivity. Qed.

Lemma mapM_project_has_fields (rows : list (list (string * value))) :
  Forall has_fields rows ->
  mapM project (map VDict rows)
  = Ok (map (fun items => VDict (projected_items items)) rows).
Proof.
  induction 1 as [|items rows Hitems _ IH]; simpl; [reflexivity|].
  rewrite (project_has_fields items Hitems), IH. reflexivity.
Qed.

(** The handler on arguments that parse: its one call, and the
    projection loop on the answer. *)
Lemma listings_get_runs
  (listing_service_url : string) (listing_service : http_call -> res value)
  (pn ps uid : option string) (n m : Z) (u : value) :
  int (get_argument pn (VInt 1)) = Ok n ->
  int (get_argument ps (VInt 10)) = Ok m ->
  optional_int uid = Ok u ->
  let call := requests_get (listing_service_url ++ "/listings")
                (VDict [("page_num", VInt n); ("page_size", VInt m); ("user_id", u)]) in
  ListingsHandler_get listing_service_url listing_service pn ps uid
  = {| calls := [call];
       outcome :=
         let* data := listing_service call in
         let* listings := dict_get data "listings" in
         let* rows := iterate listings in
         let* listings := mapM project rows in
         Ok (listings_listed listings) |}.
Proof.
  intros Hn Hm Hu call. unfold ListingsHandler_get. rewrite Hn, Hm.
  destruct uid as [s|]; simpl in Hu |- *.
  - destruct (int_of_str s) as [k|]; simpl in Hu |- *; [|discriminate].
    injection Hu as <-. reflexivity.
  - injection Hu as <-. reflexivity.
Qed.

(** C8.  Every listing that holds the six fields is projected by
    [GET /listings] to the object of exactly those six fields, each with
    the value the listing has for it, whatever other fields it carries;
    the projection has no other key, and projecting it again gives it
    back.  Nothing else projects.  When the arguments parse, the handler
    makes its one call, and when every listing of the answer holds the
    six fields it answers 200 with their projections, one per listing and
    in order. *)
Theorem listings_get_projects
  (listing_service_url : string) (listing_service : http_call -> res value)
  (pn ps uid : option string) :
  (forall items, has_fields items ->
     project (VDict items) = Ok (VDict (projected_items items))
     /\ project (VDict (projected_items items)) = Ok (VDict (projected_items items)))
  /\ (forall items,
        map fst (projected_items items) = fields
        /\ (forall k, ~ In k fields -> lookup k (projected_items items) = None)
        /\ (has_fields items ->
            forall k, In k fields -> lookup k (projected_items items) = lookup k items))
  /\ (forall row p, project row = Ok p ->
        exists items,
          row = VDict items /\ has_fields items /\ p = VDict (projected_items items))
  /\ (forall n m u data rows,
        int (get_argument pn (VInt 1)) = Ok n ->
        int (get_argument ps (VInt 10)) = Ok m ->
        optional_int uid = Ok u ->
        let call := requests_get (listing_service_url ++ "/listings")
                      (VDict [("page_num", VInt n); ("page_size", VInt m);
                              ("user_id", u)]) in
        listing_service call = Ok data ->
        dict_get data "listings" = Ok (VList (map VDict rows)) ->
        Forall has_fields rows ->
        ListingsHandler_get listing_service_url listing_service pn ps uid
        = {| calls := [call];
             outcome :=
               Ok (write_json
                     (VDict [("result", VBool true);
                             ("listings",
                              VList (map (fun items => VDict (projected_items items))
                                         rows))])
                     200) |}).
Proof.
  split; [|split; [|split]].
  - intros items H. split; [now apply project_has_fields|].
    rewrite (project_has_fields _ (projected_items_has_fields items)).
    now rewrite projected_items_again.
  - intros items. split; [reflexivity|]. split.
    + intros k Hk. apply lookup_not_in. exact Hk.
    + intros H k Hk.
      destruct (has_fields_values items H)
        as (v1 & v2 & v3 & v4 & v5 & v6 & H1 & H2 & H3 & H4 & H5 & H6).
      simpl in Hk.
      destruct Hk as [<-|[<-|[<-|[<-|[<-|[<-|[]]]]]]];
        unfold projected_items, fields; cbn [map];
        rewrite H1, H2, H3, H4, H5, H6; reflexivity.
  - intros row p Hp. unfold project in Hp.
    destruct (project_items row) as [its|e] eqn:E; [|discriminate].
    injection Hp as <-.
    apply project_items_inv in E
      as (items & v1 & v2 & v3 & v4 & v5 & v6 & -> & H1 & H2 & H3 & H4 & H5 & H6 & ->).
    exists items. split; [reflexivity|]. split.
    + intros field Hin. simpl in Hin.
      destruct Hin as [<-|[<-|[<-|[<-|[<-|[<-|[]]]]]]]; congruence.
    + unfold projected_items, fields. cbn [map].
      now rewrite H1, H2, H3, H4, H5, H6.
  - intros n m u data rows Hn Hm Hu call Hdata Hlistings Hrows.
    rewrite (listings_get_runs _ _ pn ps uid n m u Hn Hm Hu). fold call.
    rewrite Hdata. cbn [bind]. rewrite Hlistings. cbn [bind iterate].
    rewrite (mapM_project_has_fields rows Hrows). reflexivity.
Qed.

Lemma listings_get_projects_witness :
  ListingsHandler_get "http://listings" verbose_service None None (Some "2")
  = {| calls := [requests_get "http://listings/listings"
                   (VDict [("page_num", VInt 1); ("page_size", VInt 10);
                           ("user_id", VInt 2)])];
       outcome :=
         Ok (write_json
               (VDict
                  [("result", VBool true);
                   ("listings",
                    VList [VDict [("id", VInt 1); ("user_id", VInt 2);
                                  ("listing_type", VStr "rent"); ("price", VInt 4500);
                                  ("created_at", VInt 10); ("updated_at", VInt 11)];
                           VDict [("id", VInt 2); ("user_id", VInt 2);
                                  ("listing_type", VStr "sale"); ("price", VInt 900000);
                                  ("created_at", VInt 20); ("updated_at", VInt 20)]])])
               200) |}.
Proof.
  apply (proj2 (proj2 (proj2 (listings_get_projects "http://listings" verbose_service
                                None None (Some "2"))))
           1 10 (VInt 2) _
           [ [("price", VInt 4500); ("internal_note", VStr "x");
              ("id", VInt 1); ("user_id", VInt 2); ("updated_at", VInt 11);
              ("listing_type", VStr "rent"); ("score", VInt 3);
              ("created_at", VInt 10)];
             [("id", VInt 2); ("user_id", VInt 2);
              ("listing_type", VStr "sale"); ("price", VInt 900000);
              ("created_at", VInt 20); ("updated_at", VInt 20)] ]
           eq_refl eq_refl eq_refl eq_refl eq_refl).
  repeat constructor;
    intros field Hin; simpl in Hin;
    destruct Hin as [<-|[<-|[<-|[<-|[<-|[<-|[]]]]]]]; discriminate.
Defined.

(** C10.  Once the arguments are accepted and the Listing Service has
    answered with JSON, an answer without the key "listings" makes the
    loop iterate over [None] and the handler end in [TypeError]; a
    listings array with an element that lacks one of the six fields makes
    it end in [KeyError] or [TypeError].  In neither case is anything
    written, [{result: false, errors}] included. *)
Theorem listings_get_malformed_backend
  (listing_service_url : string) (listing_service : http_call -> res value)
  (pn ps uid : option string) (call : http_call) (data : value) :
  calls (ListingsHandler_get listing_service_url listing_service pn ps uid) = [call] ->
  listing_service call = Ok data ->
  (forall items, data = VDict items -> lookup "listings" items = None ->
     outcome (ListingsHandler_get listing_service_url listing_service pn ps uid)
     = Raise TypeError)
  /\ (forall rows row field,
        dict_get data "listings" = Ok (VList rows) ->
        In row rows -> In field fields ->
        (forall v, subscript row field <> Ok v) ->
        exists e,
          outcome (ListingsHandler_get listing_service_url listing_service pn ps uid)
          = Raise e
          /\ (e = KeyError \/ e = TypeError)).
Proof.
  intros Hcall Hdata.
  rewrite (listings_get_outcome _ _ _ _ _ call Hcall), Hdata. cbn [bind].
  split.
  - intros items -> Hnone. unfold dict_get. rewrite Hnone. reflexivity.
  - intros rows row field Hlistings Hin Hfield Hmiss.
    rewrite Hlistings. cbn [bind iterate].
    destruct (mapM_raises project rows row Hin (project_missing row field Hfield Hmiss))
      as (row' & e & _ & Erow' & ->).
    exists e. split; [reflexivity|]. now apply project_raises in Erow'.
Qed.

Lemma listings_get_malformed_backend_witness :
  outcome (ListingsHandler_get "http://listings" failing_service None None None)
  = Raise TypeError.
Proof.
  apply (proj1 (listings_get_malformed_backend "http://listings" failing_service
                  None None None
                  (requests_get "http://listings/listings"
                     (VDict [("page_num", VInt 1); ("page_size", VInt 10);
                             ("user_id", VNone)]))
                  (VDict [("result", VBool false)]) eq_refl eq_refl)
               [("result", VBool false)] eq_refl eq_refl).
Defined.

End ReadListingsClaims.

(* ================================================================= *)
(** ** More on the User Service: the table as the handlers keep it *)

Section UsersTable.
Import UserService.

Lemma last_user_ok (results : list row) (user : value) :
  exists user', last_user results user = Ok user'.
Proof.
  revert user. induction results as [|r results IH]; intros user; simpl.
  - now exists user.
  - apply IH.
Qed.

(** [GET /users/{id}] always answers, with 200 or 404: whatever the id
    and the table, no exception leaves the handler. *)
Theorem user_get_always_answers (d : db) (user_id : string) :
  exists resp,
    UserHandler_get d user_id = Ok resp
    /\ (status resp = 200 \/ resp = user_not_found).
Proof.
  unfold UserHandler_get.
  destruct (select_by_id d (VStr user_id)) as [results|e].
  - destruct (last_user_ok results (VDict [])) as [user ->].
    eexists. split; [reflexivity|]. now left.
  - eexists. split; [reflexivity|]. now right.
Qed.

Lemma max_rowid_le (l : list row) (b : Z) :
  0 <= b -> (forall r, In r l -> id r <= b) -> max_rowid l <= b.
Proof.
  intros Hb. induction l as [|x l IH]; simpl; intros H; [exact Hb|].
  assert (id x <= b) by (apply H; now left).
  assert (max_rowid l <= b) by (apply IH; intros r Hr; apply H; now right).
  lia.
Qed.

Lemma consecutive_ids_bound (d : db) (r : row) :
  consecutive_ids d -> In r (users d) ->
  1 <= id r <= Z.of_nat (List.length (users d)).
Proof.
  intros [Hids _] Hin.
  apply (in_map id) in Hin. rewrite Hids in Hin.
  apply in_map_iff in Hin as (n & <- & Hn). apply in_seq in Hn. lia.
Qed.

Lemma consecutive_ids_largest (d : db) :
  consecutive_ids d -> largest_rowid d = Z.of_nat (List.length (users d)).
Proof.
  intros Hd. unfold largest_rowid. rewrite (proj2 Hd).
  apply Z.max_l. apply max_rowid_le; [lia|].
  intros r Hr. apply (consecutive_ids_bound d r Hd Hr).
Qed.

Lemma consecutive_ids_NoDup (d : db) :
  consecutive_ids d -> NoDup (map id (users d)).
Proof.
  intros [-> _]. apply Finite.Injective_map_NoDup; [|apply seq_NoDup].
  intros a b. apply Nat2Z.inj.
Qed.

Lemma consecutive_ids_db_after (d : db) (q : request) :
  consecutive_ids d -> consecutive_ids (db_after d q).
Proof.
  intros Hd.
  destruct q as [pn ps|[user_name|] time_now|user_id]; unfold db_after;
    try exact Hd.
  destruct (UsersHandler_post d (Some user_name) time_now) as [[d' resp]|e] eqn:E;
    [|exact Hd].
  apply users_post_inv in E as (_ & _ & -> & _).
  rewrite (consecutive_ids_largest d Hd).
  destruct Hd as [Hids Hseq]. unfold consecutive_ids. cbn [users sqlite_sequence].
  rewrite length_app, map_app, Hids. cbn [List.length map id].
  rewrite Nat.add_1_r, seq_S, map_app. cbn [map].
  split; [repeat f_equal; lia|lia].
Qed.

Lemma consecutive_ids_serve (qs : list request) (d : db) :
  consecutive_ids d -> consecutive_ids (serve d qs).
Proof.
  revert d. induction qs as [|q qs IH]; intros d Hd; simpl; [exact Hd|].
  apply IH, consecutive_ids_db_after, Hd.
Qed.

Lemma reachable_db_after (d : db) (q : request) :
  reachable d -> reachable (db_after d q).
Proof.
  intros [qs ->]. exists (qs ++ [q])%list. unfold serve.
  rewrite fold_left_app. reflexivity.
Qed.

(** In every table the service can reach from a new file, the ids are
    exactly 1 to the number of rows, in the order of creation; so they
    are distinct, and the next id is the number of rows plus one. *)
Theorem reachable_ids_consecutive (d : db) :
  reachable d ->
  map id (users d) = map Z.of_nat (seq 1 (List.length (users d)))
  /\ sqlite_sequence d = Z.of_nat (List.length (users d))
  /\ NoDup (map id (users d))
  /\ largest_rowid d + 1 = Z.of_nat (List.length (users d)) + 1.
Proof.
  intros [qs ->].
  assert (H : consecutive_ids (serve (init_db None) qs)).
  { apply consecutive_ids_serve. split; reflexivity. }
  split; [apply H|]. split; [apply H|].
  split; [now apply consecutive_ids_NoDup|].
  now rewrite consecutive_ids_largest.
Qed.

Lemma reachable_ids_consecutive_witness :
  map id (users (created 3 1000)) = [1; 2; 3]
  /\ sqlite_sequence (created 3 1000) = 3.
Proof.
  destruct (reachable_ids_consecutive (created 3 1000)) as (H1 & H2 & _).
  - exists [POST_users (Some "user") 1001; POST_users (Some "user") 1002;
            POST_users (Some "user") 1003].
    reflexivity.
  - split; [exact H1|exact H2].
Defined.

End UsersTable.

Section UsersRoundTrips.
Import UserService.

Lemma reachable_consecutive (d : db) : reachable d -> consecutive_ids d.
Proof.
  intros [qs ->]. apply consecutive_ids_serve. split; reflexivity.
Qed.

(** In a table the service can reach, a stored user whose id is a single
    digit is found under that digit: 200, with the stored row field by
    field. *)
Theorem user_get_finds_single_digit (d : db) (r : row) (c : ascii) :
  reachable d -> In r (users d) -> digit_of c = Some (id r) ->
  UserHandler_get d (String c EmptyString) = Ok (user_found r).
Proof.
  intros Hd Hin Hc.
  apply user_get_single_digit_found; [|exact Hin|exact Hc].
  apply consecutive_ids_NoDup, reachable_consecutive, Hd.
Qed.

Lemma user_get_finds_single_digit_witness :
  UserHandler_get (created 3 1000) "2"
  = Ok (user_found {| id := 2; name := "user"; created_at := 1002; updated_at := 1002 |}).
Proof.
  apply (user_get_finds_single_digit (created 3 1000)
           {| id := 2; name := "user"; created_at := 1002; updated_at := 1002 |} "2"%char).
  - exists [POST_users (Some "user") 1001; POST_users (Some "user") 1002;
            POST_users (Some "user") 1003].
    reflexivity.
  - simpl. right. left. reflexivity.
  - reflexivity.
Defined.

(** Create, then read: in a table the service can reach, the user that
    [POST /users] has just returned, when its id is a single digit, is
    what [GET /users/{id}] answers under that digit right after. *)
Theorem users_post_then_get (d d' : db) (user_name : string) (time_now : Z)
  (resp : response) (c : ascii) :
  reachable d ->
  UsersHandler_post d (Some user_name) time_now = Ok (d', resp) ->
  digit_of c = Some (Z.of_nat (List.length (users d)) + 1) ->
  UserHandler_get d' (String c EmptyString) = Ok resp
  /\ resp = user_found {| id := Z.of_nat (List.length (users d)) + 1;
                          name := user_name;
                          created_at := time_now; updated_at := time_now |}.
Proof.
  intros Hd Hpost Hc.
  assert (Hd' : reachable d').
  { replace d' with (db_after d (POST_users (Some user_name) time_now)).
    - now apply reachable_db_after.
    - unfold db_after. now rewrite Hpost. }
  apply users_post_inv in Hpost as (_ & _ & Ed' & ->).
  rewrite (consecutive_ids_largest d (reachable_consecutive d Hd)) in *.
  split; [|reflexivity].
  apply user_get_single_digit_found; [| |exact Hc].
  - apply consecutive_ids_NoDup, reachable_consecutive, Hd'.
  - rewrite Ed'. simpl. apply in_or_app. right. now left.
Qed.

Lemma users_post_then_get_witness :
  exists d' resp,
    UsersHandler_post (created 3 1000) (Some "dan") 2000 = Ok (d', resp)
    /\ UserHandler_get d' "4" = Ok resp
    /\ resp = user_found {| id := 4; name := "dan"; created_at := 2000; updated_at := 2000 |}.
Proof.
  eexists _, _. split; [reflexivity|].
  apply (users_post_then_get (created 3 1000) _ "dan" 2000 _ "4"%char).
  - exists [POST_users (Some "user") 1001; POST_users (Some "user") 1002;
            POST_users (Some "user") 1003].
    reflexivity.
  - reflexivity.
  - reflexivity.
Defined.

(** [POST /users] never takes its 400 or 500 branch: whatever it
    answers is 200, and an answer means that one row, the returned user,
    was added after the rows already there, under an id larger than all
    of theirs.  Once [self.get_argument("name")] has returned the name,
    the handler fails in two cases only: a clock reading the driver
    cannot bind, or rowids used up. *)
Theorem users_post_outcomes (d : db) (name_arg : option string) (time_now : Z) :
  (forall d' resp,
     UsersHandler_post d name_arg time_now = Ok (d', resp) ->
     status resp = 200
     /\ exists r, resp = user_found r
                  /\ users d' = (users d ++ [r])%list
                  /\ name_arg = Some (name r)
                  /\ (forall x, In x (users d) -> id x < id r))
  /\ (forall user_name e,
        name_arg = Some user_name ->
        UsersHandler_post d name_arg time_now = Raise e ->
        (fits_int64 time_now = false /\ e = OverflowError)
        \/ (max_int64 <= largest_rowid d /\ e = DatabaseError)).
Proof.
  split.
  - intros d' resp H. destruct name_arg as [user_name|]; [|discriminate].
    apply users_post_inv in H as (_ & _ & -> & ->).
    split; [reflexivity|]. eexists. split; [reflexivity|].
    split; [reflexivity|]. split; [reflexivity|].
    intros x Hx. simpl. apply max_rowid_ge in Hx. unfold largest_rowid. lia.
  - intros user_name e ->.
    unfold UsersHandler_post, insert_user, bind_parameters. simpl.
    destruct (fits_int64 time_now) eqn:Hfit; simpl.
    + fold (largest_rowid d).
      destruct (Z.ltb_spec (largest_rowid d) max_int64) as [Hlt|Hge]; simpl;
        [discriminate|].
      intros [= <-]. right. now split.
    + intros [= <-]. left. now split.
Qed.

Lemma users_post_outcomes_witness :
  (fits_int64 (2 ^ 63) = false /\ OverflowError = OverflowError)
  \/ (max_int64 <= largest_rowid (created 3 1000) /\ OverflowError = DatabaseError).
Proof.
  apply (proj2 (users_post_outcomes (created 3 1000) (Some "dan") (2 ^ 63))
           "dan" OverflowError); reflexivity.
Defined.

Lemma users_db_after_grows (d : db) (q : request) :
  exists added, users (db_after d q) = (users d ++ added)%list.
Proof.
  destruct q as [pn ps|[user_name|] time_now|user_id]; unfold db_after;
    try (exists []; now rewrite app_nil_r).
  destruct (UsersHandler_post d (Some user_name) time_now) as [[d' resp]|e] eqn:E;
    [|exists []; now rewrite app_nil_r].
  apply users_post_inv in E as (_ & _ & -> & _). eexists. reflexivity.
Qed.

(** No request removes or changes a stored user: whatever is served, the
    table afterwards is the table before followed by the users created in
    between. *)
Theorem users_never_removed (d : db) (qs : list request) :
  exists added, users (serve d qs) = (users d ++ added)%list.
Proof.
  revert d. induction qs as [|q qs IH]; intros d; simpl.
  - exists []. now rewrite app_nil_r.
  - destruct (users_db_after_grows d q) as [added1 H1].
    destruct (IH (db_after d q)) as [added2 H2].
    exists (added1 ++ added2)%list. now rewrite H2, H1, app_assoc.
Qed.

End UsersRoundTrips.

(* ================================================================= *)
(** ** More on [GET /users]: arguments at and beyond their bounds *)

Section ListUsersEdges.
Import UserService.

(** The handler on arguments that parse and that the driver can bind. *)
Lemma users_get_runs (d : db) (pn ps : option string) (page_num page_size : Z) :
  int (get_argument pn (VInt 1)) = Ok page_num ->
  int (get_argument ps (VInt 10)) = Ok page_size ->
  fits_int64 page_size = true ->
  fits_int64 ((page_num - 1) * page_size) = true ->
  UsersHandler_get d pn ps
  = Ok (users_listed (limit_offset page_size ((page_num - 1) * page_size)
                        (order_by_created_at_desc (users d)))).
Proof.
  intros Hpn Hps Hl Ho. unfold UsersHandler_get. rewrite Hpn, Hps.
  unfold select_page. rewrite (bind_two_integers _ _ Hl Ho). cbn [bind].
  rewrite mapM_user_of_row. reflexivity.
Qed.

Lemma fits_int64_iff (n : Z) :
  fits_int64 n = true <-> - 2 ^ 63 <= n <= max_int64.
Proof.
  unfold fits_int64. rewrite andb_true_iff, !Z.leb_le. reflexivity.
Qed.

(** The argument checks of [GET /users] stop at the first argument that
    does not parse, [page_num] before [page_size], and answer 400 with
    its name; nothing else makes the handler answer 400. *)
Theorem users_get_bad_arguments (d : db) (pn ps : option string) :
  (forall e, int (get_argument pn (VInt 1)) = Raise e ->
     UsersHandler_get d pn ps = Ok (invalid_argument "invalid page_num"))
  /\ (forall n e,
        int (get_argument pn (VInt 1)) = Ok n ->
        int (get_argument ps (VInt 10)) = Raise e ->
        UsersHandler_get d pn ps = Ok (invalid_argument "invalid page_size"))
  /\ (forall resp,
        UsersHandler_get d pn ps = Ok resp -> status resp <> 200 ->
        (exists e, int (get_argument pn (VInt 1)) = Raise e)
        \/ (exists e, int (get_argument ps (VInt 10)) = Raise e)).
Proof.
  unfold UsersHandler_get. split; [|split].
  - intros e ->. reflexivity.
  - intros n e -> ->. reflexivity.
  - intros resp.
    destruct (int (get_argument pn (VInt 1))) as [page_num|e]; [|left; now exists e].
    destruct (int (get_argument ps (VInt 10))) as [page_size|e]; [|right; now exists e].
    destruct (select_page d _) as [results|e]; [|discriminate].
    cbn [bind]. rewrite mapM_user_of_row. cbn [bind].
    intros [= <-] H. now elim H.
Qed.

Lemma users_get_bad_arguments_witness :
  UsersHandler_get (created 3 1000) (Some "two") (Some "ten")
  = Ok (invalid_argument "invalid page_num")
  /\ UsersHandler_get (created 3 1000) (Some "2") (Some "")
     = Ok (invalid_argument "invalid page_size").
Proof.
  split.
  - apply (proj1 (users_get_bad_arguments (created 3 1000) (Some "two") (Some "ten"))
             ValueError).
    reflexivity.
  - apply (proj1 (proj2 (users_get_bad_arguments (created 3 1000) (Some "2") (Some "")))
             2 ValueError); reflexivity.
Defined.

(** When both arguments of [GET /users] parse, the handler ends in an
    exception exactly when the page size or the offset computed from them
    is outside 64 bits, the exception is then the driver's
    [OverflowError], and otherwise the answer is 200. *)
Theorem users_get_raises_only_overflow
  (d : db) (pn ps : option string) (page_num page_size : Z) :
  int (get_argument pn (VInt 1)) = Ok page_num ->
  int (get_argument ps (VInt 10)) = Ok page_size ->
  (forall e,
     UsersHandler_get d pn ps = Raise e <->
     e = OverflowError
     /\ (fits_int64 page_size = false
         \/ fits_int64 ((page_num - 1) * page_size) = false))
  /\ (fits_int64 page_size = true ->
      fits_int64 ((page_num - 1) * page_size) = true ->
      exists resp, UsersHandler_get d pn ps = Ok resp /\ status resp = 200).
Proof.
  intros Hpn Hps. split.
  - intros e. unfold UsersHandler_get. rewrite Hpn, Hps.
    unfold select_page, bind_parameters. simpl.
    destruct (fits_int64 page_size) eqn:Hl; simpl.
    + destruct (fits_int64 ((page_num - 1) * page_size)) eqn:Ho; simpl.
      * rewrite mapM_user_of_row. simpl. split; [discriminate|].
        intros (_ & [H|H]); discriminate H.
      * split; [intros [= <-]; auto|intros (-> & _); reflexivity].
    + split; [intros [= <-]; auto|intros (-> & _); reflexivity].
  - intros Hl Ho.
    rewrite (users_get_runs d pn ps page_num page_size Hpn Hps Hl Ho).
    eexists. split; reflexivity.
Qed.

(** A page size of zero gives an empty list, whatever the page number. *)
Theorem users_get_page_size_zero (d : db) (pn ps : option string) (page_num : Z) :
  int (get_argument pn (VInt 1)) = Ok page_num ->
  int (get_argument ps (VInt 10)) = Ok 0 ->
  UsersHandler_get d pn ps = Ok (users_listed []).
Proof.
  intros Hpn Hps.
  rewrite (users_get_runs d pn ps page_num 0 Hpn Hps); [reflexivity|reflexivity|].
  rewrite Z.mul_0_r. reflexivity.
Qed.

Lemma users_get_page_size_zero_witness :
  UsersHandler_get (created 3 1000) (Some "-7") (Some "0") = Ok (users_listed []).
Proof.
  apply (users_get_page_size_zero (created 3 1000) (Some "-7") (Some "0") (-7));
    reflexivity.
Defined.

(** A negative page size is no limit at all: from page 1 on, the answer
    is the whole table, newest first. *)
Theorem users_get_negative_page_size
  (d : db) (pn ps : option string) (page_num page_size : Z) :
  int (get_argument pn (VInt 1)) = Ok page_num ->
  int (get_argument ps (VInt 10)) = Ok page_size ->
  1 <= page_num -> page_size < 0 ->
  - 2 ^ 63 <= (page_num - 1) * page_size -> - 2 ^ 63 <= page_size ->
  UsersHandler_get d pn ps
  = Ok (users_listed (order_by_created_at_desc (users d))).
Proof.
  intros Hpn Hps H1 Hneg Ho Hl.
  rewrite (users_get_runs d pn ps page_num page_size Hpn Hps).
  - unfold limit_offset.
    destruct (Z.ltb_spec page_size 0) as [_|Hge]; [|lia].
    replace (Z.to_nat ((page_num - 1) * page_size)) with 0%nat by nia.
    reflexivity.
  - apply fits_int64_iff. unfold max_int64. lia.
  - apply fits_int64_iff. unfold max_int64. nia.
Qed.

Lemma users_get_negative_page_size_witness :
  UsersHandler_get (created 3 1000) (Some "2") (Some "-1")
  = Ok (users_listed (order_by_created_at_desc (users (created 3 1000)))).
Proof.
  apply (users_get_negative_page_size (created 3 1000) (Some "2") (Some "-1") 2 (-1));
    try reflexivity; try lia; vm_compute; discriminate.
Defined.

(** A page number of zero or less is served as page 1. *)
Theorem users_get_page_num_below_one
  (d : db) (pn ps : option string) (page_num page_size : Z) :
  int (get_argument pn (VInt 1)) = Ok page_num ->
  int (get_argument ps (VInt 10)) = Ok page_size ->
  page_num <= 0 -> 1 <= page_size -> page_size <= max_int64 ->
  - 2 ^ 63 <= (page_num - 1) * page_size ->
  UsersHandler_get d pn ps = Ok (users_page d 1 page_size).
Proof.
  intros Hpn Hps H0 H1 Hmax Ho.
  rewrite (users_get_runs d pn ps page_num page_size Hpn Hps).
  - unfold limit_offset, users_page, page_rows, users_listed.
    destruct (Z.ltb_spec page_size 0) as [Hneg|_]; [lia|].
    replace (Z.to_nat ((page_num - 1) * page_size)) with 0%nat by nia.
    reflexivity.
  - apply fits_int64_iff. lia.
  - apply fits_int64_iff. unfold max_int64. nia.
Qed.

Lemma users_get_page_num_below_one_witness :
  UsersHandler_get (created 3 1000) (Some "-4") (Some "2")
  = Ok (users_page (created 3 1000) 1 2).
Proof.
  apply (users_get_page_num_below_one (created 3 1000) (Some "-4") (Some "2") (-4) 2);
    try reflexivity; try lia; vm_compute; discriminate.
Defined.

End ListUsersEdges.

Section ListUsersPages.
Import UserService.

Lemma users_get_raises_only_overflow_witness :
  UsersHandler_get (created 3 1000) None (Some "9223372036854775808")
  = Raise OverflowError.
Proof.
  apply (proj1 (users_get_raises_only_overflow (created 3 1000) None
                  (Some "9223372036854775808") 1 (2 ^ 63) eq_refl eq_refl)
           OverflowError).
  split; [reflexivity|]. left. reflexivity.
Defined.

Lemma firstn_add {A : Type} (n m : nat) (l : list A) :
  firstn (n + m) l = (firstn n l ++ firstn m (skipn n l))%list.
Proof.
  revert l. induction n as [|n IH]; intros l; [reflexivity|].
  destruct l as [|x l]; simpl; [now rewrite firstn_nil|].
  now rewrite IH.
Qed.

(** Two consecutive pages are two consecutive stretches of the ordering:
    no row between them is skipped and none is listed twice. *)
Theorem users_get_consecutive_pages
  (d : db) (pn pn' ps : option string) (page_num page_size : Z) :
  int (get_argument pn (VInt 1)) = Ok page_num ->
  int (get_argument pn' (VInt 1)) = Ok (page_num + 1) ->
  int (get_argument ps (VInt 10)) = Ok page_size ->
  1 <= page_num -> 1 <= page_size -> page_num * page_size <= max_int64 ->
  UsersHandler_get d pn ps = Ok (users_listed (page_rows d page_num page_size))
  /\ UsersHandler_get d pn' ps = Ok (users_listed (page_rows d (page_num + 1) page_size))
  /\ (page_rows d page_num page_size ++ page_rows d (page_num + 1) page_size)%list
     = firstn (Z.to_nat (2 * page_size))
         (skipn (Z.to_nat ((page_num - 1) * page_size))
            (order_by_created_at_desc (users d))).
Proof.
  intros Hpn Hpn' Hps H1 H2 Hmax.
  split; [|split].
  - apply (users_get_page d pn ps page_num page_size Hpn Hps); nia.
  - apply (users_get_page d pn' ps (page_num + 1) page_size Hpn' Hps); nia.
  - unfold page_rows.
    replace (Z.to_nat (2 * page_size))
      with (Z.to_nat page_size + Z.to_nat page_size)%nat by lia.
    rewrite firstn_add, skipn_skipn. repeat f_equal. nia.
Qed.

Lemma users_get_consecutive_pages_witness :
  (page_rows (created 3 1000) 1 1 ++ page_rows (created 3 1000) 2 1)%list
  = firstn 2 (order_by_created_at_desc (users (created 3 1000))).
Proof.
  exact (proj2 (proj2 (users_get_consecutive_pages (created 3 1000)
                         (Some "1") (Some "2") (Some "1") 1 1
                         eq_refl eq_refl eq_refl ltac:(lia) ltac:(lia)
                         ltac:(vm_compute; discriminate)))).
Defined.

(** A first page at least as large as the table lists every user, each
    once; a page that starts at or after the end of the table is empty. *)
Theorem users_get_whole_table_and_beyond
  (d : db) (pn ps : option string) (page_num page_size : Z) :
  int (get_argument pn (VInt 1)) = Ok page_num ->
  int (get_argument ps (VInt 10)) = Ok page_size ->
  1 <= page_num -> 1 <= page_size ->
  page_size <= max_int64 -> (page_num - 1) * page_size <= max_int64 ->
  (page_num = 1 -> Z.of_nat (List.length (users d)) <= page_size ->
     Permutation (page_rows d 1 page_size) (users d)
     /\ UsersHandler_get d pn ps = Ok (users_listed (page_rows d 1 page_size)))
  /\ (Z.of_nat (List.length (users d)) <= (page_num - 1) * page_size ->
        UsersHandler_get d pn ps = Ok (users_listed [])).
Proof.
  intros Hpn Hps H1 H2 H3 H4.
  pose proof (users_get_page d pn ps page_num page_size Hpn Hps H1 H2 H3 H4) as Hget.
  pose proof (Permutation_length (order_by_perm (users d))) as Hlen.
  split.
  - intros -> Hall. split; [|exact Hget].
    unfold page_rows. simpl. rewrite firstn_all2; [apply order_by_perm|lia].
  - intros Hend. rewrite Hget. unfold users_page, users_listed, page_rows.
    rewrite skipn_all2; [now rewrite firstn_nil|lia].
Qed.

Lemma users_get_whole_table_and_beyond_witness :
  UsersHandler_get (created 3 1000) (Some "3") (Some "2") = Ok (users_listed []).
Proof.
  apply (proj2 (users_get_whole_table_and_beyond (created 3 1000) (Some "3") (Some "2") 3 2
                  eq_refl eq_refl ltac:(lia) ltac:(lia)
                  ltac:(vm_compute; discriminate) ltac:(vm_compute; discriminate))).
  vm_compute. discriminate.
Defined.

Lemma order_by_newest_last (l : list row) (r : row) :
  Forall (fun x => created_at x < created_at r) l ->
  order_by_created_at_desc (l ++ [r]) = r :: order_by_created_at_desc l.
Proof.
  induction 1 as [|x l Hx _ IH]; simpl; [reflexivity|].
  rewrite IH. simpl.
  destruct (Z.leb_spec (created_at r) (created_at x)); [lia|reflexivity].
Qed.

(** Create, then list: a user created at a clock reading later than
    every [created_at] in the table is the first of [GET /users] right
    after. *)
Theorem users_post_then_listed_first
  (d d' : db) (user_name : string) (time_now : Z) (resp : response) :
  Forall (fun x => created_at x < time_now) (users d) ->
  UsersHandler_post d (Some user_name) time_now = Ok (d', resp) ->
  exists r,
    resp = user_found r
    /\ UsersHandler_get d' None None
       = Ok (users_listed (r :: firstn 9 (order_by_created_at_desc (users d)))).
Proof.
  intros Hnew Hpost.
  apply users_post_inv in Hpost as (_ & _ & -> & ->).
  eexists. split; [reflexivity|].
  rewrite (users_get_page _ None None 1 10 eq_refl eq_refl);
    try (vm_compute; discriminate).
  unfold users_page, users_listed, page_rows. cbn [users].
  rewrite order_by_newest_last; [reflexivity|exact Hnew].
Qed.

Lemma users_post_then_listed_first_witness :
  exists r,
    user_found {| id := 4; name := "dan"; created_at := 2000; updated_at := 2000 |}
    = user_found r
    /\ UsersHandler_get (db_after (created 3 1000) (POST_users (Some "dan") 2000)) None None
       = Ok (users_listed
               (r :: firstn 9 (order_by_created_at_desc (users (created 3 1000))))).
Proof.
  apply (users_post_then_listed_first (created 3 1000)
           (db_after (created 3 1000) (POST_users (Some "dan") 2000)) "dan" 2000
           (user_found {| id := 4; name := "dan"; created_at := 2000; updated_at := 2000 |})).
  - vm_compute. repeat constructor.
  - reflexivity.
Defined.

End ListUsersPages.

(* ================================================================= *)
(** ** More on the User Service: the routing table *)

Section Routing.
Import UserService.

Lemma strip_prefix_app (p s rest : string) :
  strip_prefix p s = Some rest <-> s = p ++ rest.
Proof.
  revert s. induction p as [|a p IH]; intros s; simpl.
  - split; [intros [= ->]; reflexivity|intros ->; reflexivity].
  - destruct s as [|b t]; [split; discriminate|].
    destruct (Ascii.eqb_spec a b) as [->|Hab].
    + rewrite IH. split; [intros ->; reflexivity|intros [= ->]; reflexivity].
    + split; [discriminate|intros [= E _]; now elim Hab].
Qed.

Lemma strip_prefix_same (p q s : string) :
  strip_prefix (p ++ q) (p ++ s) = strip_prefix q s.
Proof.
  induction p as [|a p IH]; simpl; [reflexivity|].
  now rewrite Ascii.eqb_refl.
Qed.

Lemma at_dollar_cases (s : string) :
  at_dollar s = true <-> s = "" \/ s = String "010"%char "".
Proof.
  unfold at_dollar. rewrite orb_true_iff, !String.eqb_eq. reflexivity.
Qed.

Lemma span_digits_split (s ds rest : string) :
  span_digits s = (ds, rest) -> s = ds ++ rest /\ all_digits ds = true.
Proof.
  revert ds rest. induction s as [|c t IH]; simpl; intros ds rest.
  - intros [= <- <-]. now split.
  - destruct (digit_of c) as [n|] eqn:Hc.
    + destruct (span_digits t) as [ds' rest'].
      intros [= <- <-]. destruct (IH ds' rest' eq_refl) as [-> Hds].
      split; [reflexivity|]. unfold all_digits in *. simpl. now rewrite Hc.
    + intros [= <- <-]. now split.
Qed.

Lemma span_digits_all (ds tail : string) :
  all_digits ds = true -> tail = "" \/ tail = String "010"%char "" ->
  span_digits (ds ++ tail) = (ds, tail).
Proof.
  intros Hds Htail. induction ds as [|c ds IH]; simpl.
  - destruct Htail as [-> | ->]; reflexivity.
  - unfold all_digits in Hds. simpl in Hds.
    destruct (digit_of c) as [n|]; [|discriminate].
    rewrite (IH Hds). reflexivity.
Qed.

(** The route [/users/(\d+)] hands [UserHandler.get] a non-empty string
    of decimal digits and nothing else, and every path made of [/users/]
    and such a string gets there: neither [/users/ping] nor [/users],
    which come first in the table, takes any of them. *)
Theorem route_to_user_handler (path : string) (groups : list string) :
  find_handler make_app path = Some (UserHandler, groups) <->
  exists user_id,
    groups = [user_id]
    /\ user_id <> "" /\ all_digits user_id = true
    /\ (path = "/users/" ++ user_id
        \/ path = "/users/" ++ user_id ++ String "010"%char "").
Proof.
  unfold make_app, find_handler. split.
  - destruct (regex_match _ path) as [g|]; [discriminate|].
    destruct (regex_match _ path) as [g|]; [discriminate|].
    unfold regex_match. cbn [literal digits_group handler_class].
    destruct (strip_prefix "/users/" path) as [rest|] eqn:Hp; [|discriminate].
    apply strip_prefix_app in Hp.
    destruct (span_digits rest) as [ds rest'] eqn:Hs.
    apply span_digits_split in Hs as [-> Hds].
    destruct (String.eqb_spec ds "") as [->|Hne]; [discriminate|]. cbn [negb andb].
    destruct (at_dollar rest') eqn:Hd; [|discriminate].
    apply at_dollar_cases in Hd. intros [= <-].
    exists ds. split; [reflexivity|]. split; [exact Hne|]. split; [exact Hds|].
    destruct Hd as [-> | ->]; [left|right]; rewrite Hp; [|reflexivity].
    f_equal. clear. induction ds as [|c ds IH]; simpl; congruence.
  - intros (user_id & -> & Hne & Hds & Hpath).
    assert (Hpath' : exists tail,
               (tail = "" \/ tail = String "010"%char "")
               /\ path = "/users/" ++ user_id ++ tail).
    { destruct Hpath as [-> | ->]; [exists ""|exists (String "010"%char "")].
      - split; [now left|]. f_equal. clear.
        induction user_id as [|c s IH]; simpl; congruence.
      - split; [now right|reflexivity]. }
    destruct Hpath' as (tail & Htail & ->).
    destruct user_id as [|c ds]; [now elim Hne|].
    assert (Hc : exists n, digit_of c = Some n).
    { unfold all_digits in Hds. simpl in Hds.
      destruct (digit_of c) as [n|]; [now exists n|discriminate]. }
    destruct Hc as [n Hc].
    assert (Hping : regex_match
                      {| literal := "/users/ping"; digits_group := false;
                         handler_class := PingHandler |}
                      ("/users/" ++ String c ds ++ tail) = None).
    { unfold regex_match. cbn [literal digits_group].
      change "/users/ping" with ("/users/" ++ "ping").
      rewrite strip_prefix_same. cbn [append strip_prefix].
      destruct (Ascii.eqb_spec "p"%char c) as [<-|_]; [discriminate Hc|reflexivity]. }
    rewrite Hping. clear Hping.
    assert (Husers : regex_match
                       {| literal := "/users"; digits_group := false;
                          handler_class := UsersHandler |}
                       ("/users/" ++ String c ds ++ tail) = None) by reflexivity.
    rewrite Husers. clear Husers.
    unfold regex_match. cbn [literal digits_group handler_class].
    assert (Hp : strip_prefix "/users/" ("/users/" ++ String c ds ++ tail)
                 = Some (String c ds ++ tail)) by (now apply strip_prefix_app).
    rewrite Hp, (span_digits_all (String c ds) tail Hds Htail).
    cbn [String.eqb negb andb].
    apply at_dollar_cases in Htail. rewrite Htail. reflexivity.
Qed.

Lemma route_to_user_handler_witness :
  find_handler make_app "/users/42" = Some (UserHandler, ["42"]).
Proof.
  apply (proj2 (route_to_user_handler "/users/42" ["42"])).
  exists "42". split; [reflexivity|]. split; [discriminate|].
  split; [reflexivity|]. left. reflexivity.
Defined.

End Routing.

(* ================================================================= *)
(** ** More on the gateway *)

Section GatewayForwarding.
Import PublicApi.

Variable service_url : string.
Variable service : http_call -> res value.

(** The gateway's [POST /users] checks nothing: for every JSON object it
    makes one POST to [/users] of the User Service, with the [name] of the
    body ([None] when there is none) as the only query parameter and no
    form body, and answers 200 with whatever JSON comes back; a body that
    is not an object ends the handler in [AttributeError] before any
    call. *)
Theorem gateway_users_post_forwards (data : value) :
  (forall items, data = VDict items ->
     let call := {| method := "POST"; url := service_url ++ "/users";
                    params := Some (VDict [("name",
                                            match lookup "name" items with
                                            | Some v => v
                                            | None => VNone
                                            end)]);
                    PublicApi.data := None |} in
     calls (UsersHandler_post service_url service data) = [call]
     /\ (forall json, service call = Ok json ->
           outcome (UsersHandler_post service_url service data)
           = Ok (write_json json 200))
     /\ (forall e, service call = Raise e ->
           outcome (UsersHandler_post service_url service data) = Raise e))
  /\ ((forall items, data <> VDict items) ->
      UsersHandler_post service_url service data
      = {| calls := []; outcome := Raise AttributeError |}).
Proof.
  split.
  - intros items -> call. unfold UsersHandler_post, dict_get.
    destruct (lookup "name" items) as [v|]; cbn [calls outcome];
      (split; [reflexivity|]);
      (split; [intros json Hj|intros e He]);
      unfold requests_post; fold call; rewrite ?Hj, ?He; reflexivity.
  - intros Hnot. destruct data; try reflexivity. now elim (Hnot items).
Qed.

Lemma dict_get_dict (items : list (string * value)) (k : string) :
  exists v, dict_get (VDict items) k = Ok v.
Proof.
  unfold dict_get. destruct (lookup k items) as [v|]; eexists; reflexivity.
Qed.

Lemma validate_no_errors (data u l p : value) :
  validate data = Ok (u, l, p, []) ->
  exists items user_id price n lt m,
    data = VDict items
    /\ dict_get data "user_id" = Ok user_id /\ int user_id = Ok n
    /\ dict_get data "listing_type" = Ok (VStr lt) /\ (lt = "rent" \/ lt = "sale")
    /\ dict_get data "price" = Ok price /\ int price = Ok m /\ 1 <= m
    /\ u = VInt n /\ l = VStr lt /\ p = VInt m.
Proof.
  destruct data as [| | | | | |items]; try discriminate.
  unfold validate.
  destruct (dict_get (VDict items) "user_id") as [user_id|] eqn:Hu; [|discriminate].
  destruct (dict_get (VDict items) "listing_type") as [listing_type|] eqn:Hl;
    [|discriminate].
  destruct (dict_get (VDict items) "price") as [price|] eqn:Hp; [|discriminate].
  cbn [bind]. unfold _validate_user_id, _validate_listing_type, _validate_price.
  destruct (int user_id) as [n|] eqn:En;
    (destruct listing_type as [| | | |lt| |]; cbn [in_str_set bind existsb negb orb];
     try discriminate;
     try (destruct (int price) as [m|]; [destruct (m <? 1)|]; discriminate)).
  all: destruct (String.eqb_spec lt "rent") as [Hr|_];
    [|destruct (String.eqb_spec lt "sale") as [Hs|_]];
    cbn [orb negb bind app];
    (destruct (int price) as [m|] eqn:Em; [destruct (Z.ltb_spec m 1) as [|Hm]|]);
    cbn [app]; try discriminate.
  all: intros [= <- <- <-]; exists items, user_id, price, n, lt, m;
    repeat split; auto.
Qed.

(** The gateway never forwards an invalid listing: any call that
    [POST /listings] makes is a POST to [/listings] of the Listing Service
    whose parameters are an integer [user_id], a [listing_type] that is
    "rent" or "sale" and an integer [price] of 1 or more, each read from
    the field of the same name in the body. *)
Theorem listings_post_forwards_only_valid (data : value) (c : http_call) :
  In c (calls (ListingsHandler_post service_url service data)) ->
  exists user_id price n lt m,
    c = {| method := "POST"; url := service_url ++ "/listings";
           params := Some (listing_payload n lt m); PublicApi.data := None |}
    /\ dict_get data "user_id" = Ok user_id /\ int user_id = Ok n
    /\ dict_get data "listing_type" = Ok (VStr lt) /\ (lt = "rent" \/ lt = "sale")
    /\ dict_get data "price" = Ok price /\ int price = Ok m /\ 1 <= m.
Proof.
  unfold ListingsHandler_post.
  destruct (validate data) as [[[[u l] p] errors]|e] eqn:Ev; [|intros []].
  destruct errors as [|msg errors]; [|intros []].
  apply validate_no_errors in Ev
    as (items & user_id & price & n & lt & m & -> & Hu & En & Hl & Hlt & Hp & Em & Hm
        & -> & -> & ->).
  cbn [List.length Nat.ltb Nat.leb calls]. intros [<-|[]].
  exists user_id, price, n, lt, m. repeat split; auto.
Qed.

(** How [POST /listings] can end once the body is parsed. *)
Lemma listings_post_parsed_outcomes (data : value) :
  (List.length (calls (ListingsHandler_post service_url service data)) <= 1)%nat
  /\ (forall resp,
        outcome (ListingsHandler_post service_url service data) = Ok resp ->
        (status resp = 400
         /\ calls (ListingsHandler_post service_url service data) = [])
        \/ (status resp = 200
            /\ exists c, calls (ListingsHandler_post service_url service data) = [c]
                         /\ service c = Ok (body resp)))
  /\ (forall e,
        outcome (ListingsHandler_post service_url service data) = Raise e ->
        calls (ListingsHandler_post service_url service data) = [] ->
        (e = AttributeError /\ forall items, data <> VDict items)
        \/ (e = TypeError
            /\ exists v, dict_get data "listing_type" = Ok v /\ hashable v = false)).
Proof.
  unfold ListingsHandler_post.
  destruct (validate data) as [[[[u l] p] errors]|e0] eqn:Ev.
  - destruct errors as [|msg errors]; cbn [List.length Nat.ltb Nat.leb calls outcome].
    + split; [lia|]. split; [|discriminate].
      intros resp Hresp. right.
      destruct (service _) as [json|e] eqn:Es; [|discriminate].
      injection Hresp as <-. split; [reflexivity|].
      eexists. split; [reflexivity|exact Es].
    + split; [lia|]. split; [|discriminate].
      intros resp [= <-]. left. split; reflexivity.
  - cbn [calls outcome List.length]. split; [lia|]. split; [discriminate|].
    intros e [= <-] _. unfold validate in Ev.
    destruct data as [| | | | | |items];
      try (injection Ev as <-; left; split; [reflexivity|discriminate]).
    right.
    destruct (dict_get_dict items "user_id") as [user_id Hu].
    destruct (dict_get_dict items "listing_type") as [listing_type Hl].
    destruct (dict_get_dict items "price") as [price Hp].
    rewrite Hu, Hl, Hp in Ev.
    cbn [bind] in Ev. destruct (_validate_user_id user_id []) as [uv errors1].
    unfold _validate_listing_type in Ev.
    destruct listing_type; cbn [in_str_set bind] in Ev;
      try (destruct (negb _); cbn [bind] in Ev;
           destruct (_validate_price price _); discriminate);
      try (cbn [negb] in Ev; destruct (_validate_price price _); discriminate);
      injection Ev as <-; (split; [reflexivity|]); eexists; split;
        reflexivity || exact Hl.
Qed.

(** How [POST /listings] can end, from the body of the request on.  It
    makes at most one call.  An answer is 400 with no call made, or 200
    with the JSON that the one call returned.  When an exception ends it
    before any call, it is the exception of [json.loads] on the body, or
    the parsed body is not a JSON object ([AttributeError]), or its
    [listing_type] is an array or an object ([TypeError]). *)
Theorem listings_post_outcomes (json_loads : string -> res value) (req_body : string) :
  (List.length
     (calls (ListingsHandler_post_request json_loads service_url service req_body))
   <= 1)%nat
  /\ (forall resp,
        outcome (ListingsHandler_post_request json_loads service_url service req_body)
        = Ok resp ->
        (status resp = 400
         /\ calls (ListingsHandler_post_request json_loads service_url service req_body)
            = [])
        \/ (status resp = 200
            /\ exists c,
                 calls (ListingsHandler_post_request json_loads service_url service
                          req_body) = [c]
                 /\ service c = Ok (body resp)))
  /\ (forall e,
        outcome (ListingsHandler_post_request json_loads service_url service req_body)
        = Raise e ->
        calls (ListingsHandler_post_request json_loads service_url service req_body)
        = [] ->
        json_loads req_body = Raise e
        \/ exists data,
             json_loads req_body = Ok data
             /\ ((e = AttributeError /\ forall items, data <> VDict items)
                 \/ (e = TypeError
                     /\ exists v, dict_get data "listing_type" = Ok v
                                  /\ hashable v = false))).
Proof.
  unfold ListingsHandler_post_request.
  destruct (json_loads req_body) as [data|e0].
  - destruct (listings_post_parsed_outcomes data) as (H1 & H2 & H3).
    split; [exact H1|]. split; [exact H2|].
    intros e He Hc. right. exists data. split; [reflexivity|]. now apply H3.
  - cbn [calls outcome List.length]. split; [lia|]. split; [discriminate|].
    intros e [= <-] _. now left.
Qed.

(** The argument checks of the gateway's [GET /listings] stop at the
    first argument that does not parse, in the order [page_num],
    [page_size], [user_id], and answer 400 with its name and no call;
    when all three parse, the one call is a GET of [/listings] with the
    three parsed values as parameters, [user_id] being [None] when the
    request has none. *)
Theorem listings_get_arguments (pn ps uid : option string) :
  (forall e, int (get_argument pn (VInt 1)) = Raise e ->
     ListingsHandler_get service_url service pn ps uid
     = {| calls := []; outcome := Ok (invalid_argument "invalid page_num") |})
  /\ (forall n e,
        int (get_argument pn (VInt 1)) = Ok n ->
        int (get_argument ps (VInt 10)) = Raise e ->
        ListingsHandler_get service_url service pn ps uid
        = {| calls := []; outcome := Ok (invalid_argument "invalid page_size") |})
  /\ (forall n m e,
        int (get_argument pn (VInt 1)) = Ok n ->
        int (get_argument ps (VInt 10)) = Ok m ->
        optional_int uid = Raise e ->
        ListingsHandler_get service_url service pn ps uid
        = {| calls := []; outcome := Ok (invalid_argument "invalid user_id") |})
  /\ (forall n m u,
        int (get_argument pn (VInt 1)) = Ok n ->
        int (get_argument ps (VInt 10)) = Ok m ->
        optional_int uid = Ok u ->
        calls (ListingsHandler_get service_url service pn ps uid)
        = [ {| method := "GET"; url := service_url ++ "/listings";
               params := Some (VDict [("page_num", VInt n); ("page_size", VInt m);
                                      ("user_id", u)]);
               PublicApi.data := None |} ]).
Proof.
  unfold ListingsHandler_get. repeat split.
  - intros e ->. reflexivity.
  - intros n e -> ->. reflexivity.
  - intros n m e -> ->. destruct uid as [s|]; simpl; [|discriminate].
    destruct (int_of_str s); simpl; [discriminate|reflexivity].
  - intros n m u -> ->. destruct uid as [s|]; simpl.
    + destruct (int_of_str s); simpl; [|discriminate]. intros [= <-]. reflexivity.
    + intros [= <-]. reflexivity.
Qed.

(** What [GET /listings] does when the ["listings"] of the answer is not
    an array: an empty string or an empty object passes for an empty
    list, and anything else ends the handler in [TypeError]. *)
Theorem listings_get_listings_not_an_array
  (pn ps uid : option string) (call : http_call) (data v : value) :
  calls (ListingsHandler_get service_url service pn ps uid) = [call] ->
  service call = Ok data ->
  dict_get data "listings" = Ok v ->
  (forall rows, v <> VList rows) ->
  (v = VStr "" \/ v = VDict [] ->
     outcome (ListingsHandler_get service_url service pn ps uid)
     = Ok (listings_listed []))
  /\ (v <> VStr "" -> v <> VDict [] ->
      outcome (ListingsHandler_get service_url service pn ps uid) = Raise TypeError).
Proof.
  intros Hcall Hdata Hv Hnot.
  rewrite (listings_get_outcome _ _ _ _ _ call Hcall), Hdata. cbn [bind].
  rewrite Hv. cbn [bind]. split.
  - intros [-> | ->]; reflexivity.
  - intros Hs Hd.
    destruct v as [| | | |s|l|items]; try reflexivity.
    + destruct s as [|c s]; [now elim Hs|reflexivity].
    + now elim (Hnot l).
    + destruct items as [|[k x] items]; [now elim Hd|reflexivity].
Qed.

End GatewayForwarding.

Section GatewayWitnesses.
Import PublicApi.

Lemma gateway_users_post_forwards_witness :
  calls (UsersHandler_post "http://users" failing_service (VDict []))
  = [ {| method := "POST"; url := "http://users/users";
         params := Some (VDict [("name", VNone)]); data := None |} ]
  /\ outcome (UsersHandler_post "http://users" failing_service (VDict []))
     = Ok (write_json (VDict [("result", VBool false)]) 200).
Proof.
  destruct (proj1 (gateway_users_post_forwards "http://users" failing_service (VDict []))
              [] eq_refl) as (Hcalls & Hok & _).
  split; [exact Hcalls|]. apply Hok. reflexivity.
Defined.

Lemma listings_post_forwards_only_valid_witness :
  exists user_id price n lt m,
    requests_post "http://listings/listings" None
      (Some (listing_payload 7 "sale" 250000))
    = {| method := "POST"; url := "http://listings/listings";
         params := Some (listing_payload n lt m); data := None |}
    /\ dict_get (VDict [("price", VStr "250000"); ("listing_type", VStr "sale");
                        ("user_id", VStr "7")]) "user_id" = Ok user_id
    /\ int user_id = Ok n
    /\ dict_get (VDict [("price", VStr "250000"); ("listing_type", VStr "sale");
                        ("user_id", VStr "7")]) "listing_type" = Ok (VStr lt)
    /\ (lt = "rent" \/ lt = "sale")
    /\ dict_get (VDict [("price", VStr "250000"); ("listing_type", VStr "sale");
                        ("user_id", VStr "7")]) "price" = Ok price
    /\ int price = Ok m /\ 1 <= m.
Proof.
  apply (listings_post_forwards_only_valid "http://listings" accepting_service
           (VDict [("price", VStr "250000"); ("listing_type", VStr "sale");
                   ("user_id", VStr "7")])).
  simpl. left. reflexivity.
Defined.

Lemma listings_post_outcomes_witness :
  rejecting_loads "{user_id: 5" = Raise ValueError
  \/ exists data,
       rejecting_loads "{user_id: 5" = Ok data
       /\ ((ValueError = AttributeError /\ forall items, data <> VDict items)
           \/ (ValueError = TypeError
               /\ exists v, dict_get data "listing_type" = Ok v
                            /\ hashable v = false)).
Proof.
  apply (proj2 (proj2 (listings_post_outcomes "http://listings" accepting_service
                         rejecting_loads "{user_id: 5")));
    reflexivity.
Defined.

Lemma listings_get_arguments_witness :
  ListingsHandler_get "http://listings" accepting_service (Some "1") None (Some "me")
  = {| calls := []; outcome := Ok (invalid_argument "invalid user_id") |}.
Proof.
  apply (proj1 (proj2 (proj2 (listings_get_arguments "http://listings" accepting_service
                                (Some "1") None (Some "me")))) 1 10 ValueError);
    reflexivity.
Defined.

Lemma listings_get_listings_not_an_array_witness :
  outcome (ListingsHandler_get "http://listings" failing_service None None None)
  = Raise TypeError.
Proof.
  apply (proj2 (listings_get_listings_not_an_array "http://listings" failing_service
                  None None None
                  (requests_get "http://listings/listings"
                     (VDict [("page_num", VInt 1); ("page_size", VInt 10);
                             ("user_id", VNone)]))
                  (VDict [("result", VBool false)]) VNone
                  eq_refl eq_refl eq_refl ltac:(discriminate)));
    discriminate.
Defined.

Lemma listings_post_collects_all_errors_witness :
  ListingsHandler_post "http://listings" accepting_service (VDict [("price", VStr "cheap")])
  = {| calls := [];
       outcome := Ok (bad_request
                        ["invalid user_id";
                         "invalid listing_type. Supported values: 'rent', 'sale'";
                         "invalid price. Must be an integer"]) |}.
Proof.
  apply (listings_post_collects_all_errors "http://listings" accepting_service
           [("price", VStr "cheap")] VNone VNone (VStr "cheap")
           eq_refl eq_refl eq_refl eq_refl).
  discriminate.
Defined.

End GatewayWitnesses.
